(** * The A2A task lifecycle layer of reddit_agent

    A shallow embedding of the JSON-RPC envelope, the request dispatch of
    [server/server.py], the in-memory task manager of
    [server/task_manager.py] and its subclass in [agent/task_manager.py],
    together with the pydantic models of [models/] and
    [RedditAgent.invoke] of [agent/agent.py].

    Python objects that the code shares and mutates ([Task] instances and
    the [list] objects holding their histories) live in an explicit heap;
    the operations are written in a state-and-exception monad over a
    [World].  What lies outside the repository is a parameter: the clock,
    the source of uuids, the ISO format of a datetime and the ADK runner
    with its session service.

    Execution is sequential.  [asyncio.Lock] is only ever held across
    code without an [await], and [invoke] is a plain call, so a handler
    runs from start to end without yielding and [async with self.lock]
    is the identity here.

    Layout: the data model and the operations first, then the properties,
    each claim by its number, then the scenario of the specification run
    on the code. *)

From stdpp Require Import gmap strings list pretty.

Local Open Scope string_scope.
Local Open Scope list_scope.
Local Open Scope Z_scope.

(** ** Exceptions and results *)

Inductive exn : Type :=
| ValidationError (detail : string)   (* pydantic_core.ValidationError *)
| ValueError (msg : string)
| IndexError (msg : string)
| AttributeError (attr : string)
| JSONDecodeError
| ExternalError (what : string)       (* raised by the ADK runner or its services *)
| DanglingReference.                  (* model only: an address with no object;
                                         excluded by [wf_world] *)

Inductive result (A : Type) : Type :=
| Ok (a : A)
| Raise (e : exn).
Arguments Ok {A} a.
Arguments Raise {A} e.

Definition result_bind {A B} (r : result A) (k : A -> result B) : result B :=
  match r with
  | Ok a => k a
  | Raise e => Raise e
  end.

Fixpoint result_mapM {A B} (f : A -> result B) (l : list A) : result (list B) :=
  match l with
  | [] => Ok []
  | x :: l' =>
      result_bind (f x) (fun y =>
      result_bind (result_mapM f l') (fun ys => Ok (y :: ys)))
  end.

(** [str(e)] *)
Definition str_exn (e : exn) : string :=
  match e with
  | ValidationError d => d
  | ValueError m => m
  | IndexError m => m
  | AttributeError a => String.append "'Logger' object has no attribute '" (String.append a "'")
  | JSONDecodeError => "Expecting value"
  | ExternalError m => m
  | DanglingReference => ""
  end.

(** ** JSON values

    The decoded body of a request and the content of a response.  Numbers
    are integers; fractional numbers do not occur in the protocol. *)

#[warnings="-register-all"]
Inductive json : Type :=
| JNull
| JBool (b : bool)
| JInt (z : Z)
| JStr (s : string)
| JArr (items : list json)
| JObj (fields : list (string * json)).

(** [d.get(k)] on a decoded object *)
Fixpoint field (k : string) (fields : list (string * json)) : option json :=
  match fields with
  | [] => None
  | (k', v) :: rest => if String.eqb k k' then Some v else field k rest
  end.

(** A Python reference: the address of an object in the heap. *)
Abbreviation loc := nat (only parsing).

(** ** models/task.py *)

(** [class TaskState(str, Enum)] *)
Inductive TaskState : Type :=
| SUBMITTED | WORKING | INPUT_REQUIRED | COMPLETED | CANCELED | FAILED | UNKNOWN.

(** the [str] value of each member *)
Definition TaskState_value (s : TaskState) : string :=
  match s with
  | SUBMITTED => "submitted"
  | WORKING => "working"
  | INPUT_REQUIRED => "input-required"
  | COMPLETED => "completed"
  | CANCELED => "canceled"
  | FAILED => "failed"
  | UNKNOWN => "unknown"
  end.

(** [class TextPart]: [type] is the literal ["text"], so only [text] varies. *)
Record TextPart : Type := { text : string }.
Definition Part := TextPart.

(** [role: Literal["user", "agent"]] *)
Inductive Role : Type := user | agent.

Record Message : Type := { role : Role; parts : list Part }.

(** [datetime]: a naive instant, counted in microseconds. *)
Definition datetime := Z.

(** [class TaskStatus]: [state] is a plain [str]. *)
Record TaskStatus : Type := { state : string; timestamp : datetime }.

(** [class Task] as a value: what a reference to a [Task] object shows
    when it is followed through the heap. *)
Record Task : Type := {
  task_id : string;
  status : TaskStatus;
  history : list Message;
}.

Definition metadata_t := option (list (string * json)).

(** [class TaskQueryParams(TaskIdParams)], with the inherited fields *)
Record TaskQueryParams : Type := {
  qp_id : string;
  qp_metadata : metadata_t;
  qp_historyLength : option Z;
}.

Record TaskSendParams : Type := {
  sp_id : string;
  session_id : string;
  message : Message;
  sp_historyLength : option Z;
  sp_metadata : metadata_t;
}.

(** ** models/json_rpc.py *)

(** [id: int | str | None] *)
Inductive rpc_id : Type := IdInt (z : Z) | IdStr (s : string) | IdNone.

Record JSONRPCError : Type := {
  code : Z;
  err_message : string;
  data : option json;
}.

(** [class InternalError(JSONRPCError)] with its defaults *)
Definition InternalError (msg : string) : JSONRPCError :=
  {| code := -32603; err_message := msg; data := None |}.

(** ** models/request.py *)

Record SendTaskRequest : Type := { sreq_id : rpc_id; sreq_params : TaskSendParams }.
Record GetTaskRequest : Type := { greq_id : rpc_id; greq_params : TaskQueryParams }.

(** the discriminated union behind [A2ARequest] *)
Inductive A2ARequest_t : Type :=
| IsSendTaskRequest (r : SendTaskRequest)
| IsGetTaskRequest (r : GetTaskRequest).

(** [JSONRPCResponse] and its subclasses [SendTaskResponse] and
    [GetTaskResponse], whose [result] is a reference to a [Task] object. *)
Record JSONRPCResponse : Type := {
  resp_id : rpc_id;
  resp_result : option loc;
  resp_error : option JSONRPCError;
}.
Definition SendTaskResponse := JSONRPCResponse.
Definition GetTaskResponse := JSONRPCResponse.

(** ** Wire encoding of the leaf models *)

Definition dump_TextPart (p : TextPart) : json :=
  JObj [("type", JStr "text"); ("text", JStr (text p))].

Definition Role_value (r : Role) : string :=
  match r with user => "user" | agent => "agent" end.

Definition dump_Message (m : Message) : json :=
  JObj [("role", JStr (Role_value (role m)));
        ("parts", JArr (map dump_TextPart (parts m)))].

Definition dump_rpc_id (i : rpc_id) : json :=
  match i with
  | IdInt z => JInt z
  | IdStr s => JStr s
  | IdNone => JNull
  end.

Definition dump_JSONRPCError (e : JSONRPCError) : json :=
  JObj [("code", JInt (code e));
        ("message", JStr (err_message e));
        ("data", match data e with Some d => d | None => JNull end)].

(** ** pydantic validation of the leaf models

    Extra keys are ignored, required keys must be present, and a value
    must have the JSON type of its field.  The coercions pydantic applies
    in lax mode (a numeric string or a boolean for an [int]) are not
    modelled: such values are rejected here. *)

Definition validate_str (what : string) (j : option json) : result string :=
  match j with
  | Some (JStr s) => Ok s
  | Some _ => Raise (ValidationError (String.append what ": Input should be a valid string"))
  | None => Raise (ValidationError (String.append what ": Field required"))
  end.

Definition validate_opt_int (what : string) (j : option json) : result (option Z) :=
  match j with
  | None | Some JNull => Ok None
  | Some (JInt z) => Ok (Some z)
  | Some _ => Raise (ValidationError (String.append what ": Input should be a valid integer"))
  end.

Definition validate_metadata (j : option json) : result metadata_t :=
  match j with
  | None | Some JNull => Ok None
  | Some (JObj fs) => Ok (Some fs)
  | Some _ => Raise (ValidationError "metadata: Input should be a valid dictionary")
  end.

Definition validate_TextPart (j : json) : result TextPart :=
  match j with
  | JObj fs =>
      result_bind
        (match field "type" fs with
         | None => Ok tt
         | Some (JStr s) =>
             if String.eqb s "text" then Ok tt
             else Raise (ValidationError "type: Input should be 'text'")
         | Some _ => Raise (ValidationError "type: Input should be 'text'")
         end) (fun _ =>
      result_bind (validate_str "text" (field "text" fs)) (fun t =>
      Ok {| text := t |}))
  | _ => Raise (ValidationError "Input should be a valid dictionary or instance of TextPart")
  end.

Definition validate_Role (j : option json) : result Role :=
  match j with
  | Some (JStr s) =>
      if String.eqb s "user" then Ok user
      else if String.eqb s "agent" then Ok agent
      else Raise (ValidationError "role: Input should be 'user' or 'agent'")
  | Some _ => Raise (ValidationError "role: Input should be 'user' or 'agent'")
  | None => Raise (ValidationError "role: Field required")
  end.

Definition validate_Message (j : json) : result Message :=
  match j with
  | JObj fs =>
      result_bind (validate_Role (field "role" fs)) (fun r =>
      result_bind
        (match field "parts" fs with
         | Some (JArr items) => result_mapM validate_TextPart items
         | Some _ => Raise (ValidationError "parts: Input should be a valid list")
         | None => Raise (ValidationError "parts: Field required")
         end) (fun ps =>
      Ok {| role := r; parts := ps |}))
  | _ => Raise (ValidationError "Input should be a valid dictionary or instance of Message")
  end.

Definition validate_JSONRPCError (j : json) : result JSONRPCError :=
  match j with
  | JObj fs =>
      result_bind
        (match field "code" fs with
         | Some (JInt z) => Ok z
         | Some _ => Raise (ValidationError "code: Input should be a valid integer")
         | None => Raise (ValidationError "code: Field required")
         end) (fun c =>
      result_bind (validate_str "message" (field "message" fs)) (fun m =>
      Ok {| code := c; err_message := m;
            data := match field "data" fs with
                    | None | Some JNull => None
                    | Some d => Some d
                    end |}))
  | _ => Raise (ValidationError "Input should be a valid dictionary or instance of JSONRPCError")
  end.

Definition validate_rpc_id (j : json) : result rpc_id :=
  match j with
  | JNull => Ok IdNone
  | JInt z => Ok (IdInt z)
  | JStr s => Ok (IdStr s)
  | _ => Raise (ValidationError "id: Input should be a valid integer or string")
  end.

Definition validate_TaskQueryParams (j : json) : result TaskQueryParams :=
  match j with
  | JObj fs =>
      result_bind (validate_str "id" (field "id" fs)) (fun i =>
      result_bind (validate_metadata (field "metadata" fs)) (fun md =>
      result_bind (validate_opt_int "historyLength" (field "historyLength" fs)) (fun hl =>
      Ok {| qp_id := i; qp_metadata := md; qp_historyLength := hl |})))
  | _ => Raise (ValidationError "params: Input should be a valid dictionary or instance of TaskQueryParams")
  end.

Definition validate_jsonrpc (j : option json) : result unit :=
  match j with
  | None => Ok tt
  | Some (JStr s) =>
      if String.eqb s "2.0" then Ok tt
      else Raise (ValidationError "jsonrpc: Input should be '2.0'")
  | Some _ => Raise (ValidationError "jsonrpc: Input should be '2.0'")
  end.

(** ** google.genai / ADK values seen by [RedditAgent.invoke] *)

Record GenaiPart : Type := { part_text : option string }.
Record Content : Type := { content_parts : option (list GenaiPart) }.
Record Event : Type := { content : option Content }.

(** [l[start:]] *)
Definition slice_from {A} (start : Z) (l : list A) : list A :=
  let n := Z.of_nat (length l) in
  let lo := if start <? 0 then Z.max 0 (n + start) else Z.min start n in
  drop (Z.to_nat lo) l.

(** [sep.join(l)] *)
Fixpoint join (sep : string) (l : list string) : string :=
  match l with
  | [] => ""
  | [x] => x
  | x :: rest => String.append x (String.append sep (join sep rest))
  end.

(** the methods of [logging.Logger] that take a message *)
Definition Logger_methods : list string :=
  ["debug"; "info"; "warning"; "warn"; "error"; "exception"; "critical"; "fatal"].

(** ** The world: the manager's table, the heap, the oracles *)

(** A [Task] object in the heap: [history] is a reference to a [list]
    object, which several [Task] objects may share. *)
Record TaskObj : Type := {
  obj_id : string;
  obj_status : TaskStatus;
  obj_history : loc;
}.

Record World (R : Type) : Type := {
  tasks : gmap string loc;          (* [InMemoryTaskManager.tasks] *)
  objs : list TaskObj;              (* the [Task] objects, by address *)
  lists : list (list Message);      (* the [list] objects, by address *)
  ticks : nat;                      (* calls of [datetime.now()] so far *)
  draws : nat;                      (* calls of [uuid4()] so far *)
  runner : R;
}.

Arguments tasks {R} w.
Arguments objs {R} w.
Arguments lists {R} w.
Arguments ticks {R} w.
Arguments draws {R} w.
Arguments runner {R} w.

Definition set_tasks {R} (f : gmap string loc -> gmap string loc) (w : World R) : World R :=
  {| tasks := f (tasks w); objs := objs w; lists := lists w;
     ticks := ticks w; draws := draws w; runner := runner w |}.
Definition set_objs {R} (f : list TaskObj -> list TaskObj) (w : World R) : World R :=
  {| tasks := tasks w; objs := f (objs w); lists := lists w;
     ticks := ticks w; draws := draws w; runner := runner w |}.
Definition set_lists {R} (f : list (list Message) -> list (list Message)) (w : World R) : World R :=
  {| tasks := tasks w; objs := objs w; lists := f (lists w);
     ticks := ticks w; draws := draws w; runner := runner w |}.
Definition set_ticks {R} (f : nat -> nat) (w : World R) : World R :=
  {| tasks := tasks w; objs := objs w; lists := lists w;
     ticks := f (ticks w); draws := draws w; runner := runner w |}.
Definition set_draws {R} (f : nat -> nat) (w : World R) : World R :=
  {| tasks := tasks w; objs := objs w; lists := lists w;
     ticks := ticks w; draws := f (draws w); runner := runner w |}.
Definition set_runner {R} (r : R) (w : World R) : World R :=
  {| tasks := tasks w; objs := objs w; lists := lists w;
     ticks := ticks w; draws := draws w; runner := r |}.

(** ** The monad: state, and exceptions that keep the state

    An exception does not roll anything back: what was written before it
    was raised stays written. *)

Definition M (St A : Type) : Type := St -> result A * St.

Definition ret {St A} (a : A) : M St A := fun w => (Ok a, w).
Definition raise {St A} (e : exn) : M St A := fun w => (Raise e, w).
Definition lift {St A} (r : result A) : M St A := fun w => (r, w).
Definition bind {St A B} (m : M St A) (k : A -> M St B) : M St B :=
  fun w =>
    match m w with
    | (Ok a, w') => k a w'
    | (Raise e, w') => (Raise e, w')
    end.
(** [try: m] with [except Exception as e: h e] *)
Definition try_except {St A} (m : M St A) (h : exn -> M St A) : M St A :=
  fun w =>
    match m w with
    | (Ok a, w') => (Ok a, w')
    | (Raise e, w') => h e w'
    end.

Notation "'let!' x ':=' m 'in' k" := (bind m (fun x => k))
  (at level 10, x name, m at level 100, k at level 200, only parsing).

Definition newline : string := String (Ascii.ascii_of_nat 10) EmptyString.

(** [logger.<method>(...)] in a module whose state is [St]: the attribute
    lookup comes first. *)
Definition logger_method {St} (method : string) : M St unit :=
  if bool_decide (method ∈ Logger_methods) then ret tt
  else raise (AttributeError method).

(** ** praw values seen by [get_reddit_news]: of a post, its title *)

Record Submission : Type := { title : string }.

(** ** models/agent.py *)

Record AgentCapabilities : Type := {
  streaming : bool;
  pushNotifications : bool;
  stateTransitionHistory : bool;
}.

Record AgentSkill : Type := {
  skill_id : string;
  skill_name : string;
  skill_description : option string;
  examples : option (list string);
  inputModes : option (list string);
  outputModes : option (list string);
}.

Record AgentCard : Type := {
  card_name : string;
  card_description : string;
  card_url : string;
  card_version : string;
  capabilities : AgentCapabilities;
  skills : list AgentSkill;
  defaultInputModes : list string;
  defaultOutputModes : list string;
}.

(** [model_dump(exclude_none=True)]: a field that is [None] has no key *)
Definition opt_key {A} (k : string) (f : A -> json) (o : option A) : list (string * json) :=
  match o with
  | Some a => [(k, f a)]
  | None => []
  end.

Definition dump_str_list (l : list string) : json := JArr (map JStr l).

Definition dump_AgentCapabilities (c : AgentCapabilities) : json :=
  JObj [("streaming", JBool (streaming c));
        ("pushNotifications", JBool (pushNotifications c));
        ("stateTransitionHistory", JBool (stateTransitionHistory c))].

Definition dump_AgentSkill (k : AgentSkill) : json :=
  JObj ([("id", JStr (skill_id k)); ("name", JStr (skill_name k))]
        ++ opt_key "description" JStr (skill_description k)
        ++ opt_key "examples" dump_str_list (examples k)
        ++ opt_key "inputModes" dump_str_list (inputModes k)
        ++ opt_key "outputModes" dump_str_list (outputModes k)).

Definition dump_AgentCard (c : AgentCard) : json :=
  JObj [("name", JStr (card_name c));
        ("description", JStr (card_description c));
        ("url", JStr (card_url c));
        ("version", JStr (card_version c));
        ("capabilities", dump_AgentCapabilities (capabilities c));
        ("skills", JArr (map dump_AgentSkill (skills c)));
        ("defaultInputModes", dump_str_list (defaultInputModes c));
        ("defaultOutputModes", dump_str_list (defaultOutputModes c))].

(** validation, with the defaults of the fields *)

Definition validate_bool_default (what : string) (d : bool) (j : option json) : result bool :=
  match j with
  | None => Ok d
  | Some (JBool b) => Ok b
  | Some _ => Raise (ValidationError (String.append what ": Input should be a valid boolean"))
  end.

Definition validate_str_list (what : string) (j : json) : result (list string) :=
  match j with
  | JArr items => result_mapM (fun x => validate_str what (Some x)) items
  | _ => Raise (ValidationError (String.append what ": Input should be a valid list"))
  end.

Definition validate_str_list_default (what : string) (d : list string) (j : option json)
  : result (list string) :=
  match j with
  | None => Ok d
  | Some v => validate_str_list what v
  end.

Definition validate_opt_str (what : string) (j : option json) : result (option string) :=
  match j with
  | None | Some JNull => Ok None
  | Some (JStr x) => Ok (Some x)
  | Some _ => Raise (ValidationError (String.append what ": Input should be a valid string"))
  end.

Definition validate_opt_str_list (what : string) (j : option json)
  : result (option (list string)) :=
  match j with
  | None | Some JNull => Ok None
  | Some v => result_bind (validate_str_list what v) (fun l => Ok (Some l))
  end.

Definition validate_AgentCapabilities (j : json) : result AgentCapabilities :=
  match j with
  | JObj fs =>
      result_bind (validate_bool_default "streaming" false (field "streaming" fs)) (fun a =>
      result_bind (validate_bool_default "pushNotifications" false
                     (field "pushNotifications" fs)) (fun b =>
      result_bind (validate_bool_default "stateTransitionHistory" false
                     (field "stateTransitionHistory" fs)) (fun c =>
      Ok {| streaming := a; pushNotifications := b; stateTransitionHistory := c |})))
  | _ => Raise (ValidationError
           "Input should be a valid dictionary or instance of AgentCapabilities")
  end.

Definition validate_AgentSkill (j : json) : result AgentSkill :=
  match j with
  | JObj fs =>
      result_bind (validate_str "id" (field "id" fs)) (fun i =>
      result_bind (validate_str "name" (field "name" fs)) (fun n =>
      result_bind (validate_opt_str "description" (field "description" fs)) (fun d =>
      result_bind (validate_opt_str_list "examples" (field "examples" fs)) (fun e =>
      result_bind (validate_opt_str_list "inputModes" (field "inputModes" fs)) (fun im =>
      result_bind (validate_opt_str_list "outputModes" (field "outputModes" fs)) (fun om =>
      Ok {| skill_id := i; skill_name := n; skill_description := d;
            examples := e; inputModes := im; outputModes := om |}))))))
  | _ => Raise (ValidationError "Input should be a valid dictionary or instance of AgentSkill")
  end.

Definition validate_AgentCard (j : json) : result AgentCard :=
  match j with
  | JObj fs =>
      result_bind (validate_str "name" (field "name" fs)) (fun n =>
      result_bind (validate_str "description" (field "description" fs)) (fun d =>
      result_bind (validate_str "url" (field "url" fs)) (fun u =>
      result_bind (validate_str "version" (field "version" fs)) (fun v =>
      result_bind
        (match field "capabilities" fs with
         | Some c => validate_AgentCapabilities c
         | None => Raise (ValidationError "capabilities: Field required")
         end) (fun c =>
      result_bind
        (match field "skills" fs with
         | Some (JArr items) => result_mapM validate_AgentSkill items
         | Some _ => Raise (ValidationError "skills: Input should be a valid list")
         | None => Raise (ValidationError "skills: Field required")
         end) (fun ks =>
      result_bind (validate_str_list_default "defaultInputModes" ["text"]
                     (field "defaultInputModes" fs)) (fun im =>
      result_bind (validate_str_list_default "defaultOutputModes" ["text"]
                     (field "defaultOutputModes" fs)) (fun om =>
      Ok {| card_name := n; card_description := d; card_url := u; card_version := v;
            capabilities := c; skills := ks;
            defaultInputModes := im; defaultOutputModes := om |}))))))))
  | _ => Raise (ValidationError "Input should be a valid dictionary or instance of AgentCard")
  end.

(** ** agent/__main__.py: the card that [main] builds *)

(** [RedditAgent.SUPPORTED_CONTENT_TYPES] *)
Definition SUPPORTED_CONTENT_TYPES : list string := ["text"; "text/plain"].

(** the keyword arguments that [main] gives to [AgentSkill] *)
Definition main_skill_kwargs : json :=
  JObj [("id", JStr "fetch_reddit_post");
        ("name", JStr "Fetch Latest Reddit Posts Tool");
        ("description", JStr "Given a subreddit name, it fetch the latest posts of that subreddit and returns them in a formatted response");
        ("tags", dump_str_list ["reddit"; "news"; "posts"; "subreddit"]);
        ("examples", dump_str_list ["What are the latest posts on AI_Agents?";
                                    "Tell me the top news from gamedev"])].

Definition main_agent_card (host : string) (port : Z) : result AgentCard :=
  result_bind (validate_AgentCapabilities (JObj [("streaming", JBool false)])) (fun caps =>
  result_bind (validate_AgentSkill main_skill_kwargs) (fun skill =>
  Ok {| card_name := "RedditAgent";
        card_description :=
          "This agent replies fetched the latest posts from a given subreddit.";
        card_url := String.append "http://" (String.append host
                      (String.append ":" (String.append (pretty port) "/")));
        card_version := "1.0.0";
        capabilities := caps;
        skills := [skill];
        defaultInputModes := SUPPORTED_CONTENT_TYPES;
        defaultOutputModes := SUPPORTED_CONTENT_TYPES |})).

(** ** client/client.py: what the client sees of HTTP *)

(** An [httpx] response as the client reads it: its status code, the
    text of the [HTTPStatusError] that [raise_for_status()] raises for
    it, if it raises, and what [json()] gives, the decoded body or the
    text of the [JSONDecodeError]. *)
Record HttpxResponse : Type := {
  hx_status_code : Z;
  hx_status_error : option string;
  hx_json : string + json;
}.

(** the outcome of [client.post(...)]: a response, or an [httpx] error
    such as a refused connection or a timeout *)
Inductive post_outcome : Type :=
| Responded (response : HttpxResponse)
| PostFailed (what : string).

(** the exceptions of the client's own code *)
Inductive client_exn : Type :=
| A2AClientHTTPError (status_code : Z) (msg : string)
| A2AClientJSONError (msg : string)
| KeyError (key : string)
| TypeError (msg : string)
| HttpxError (what : string)        (* not caught by [_send_request] *)
| Propagated (e : exn).             (* raised by the models *)

Record A2AClient : Type := { client_url : string }.

(** [A2AClient.__init__]: a card is truthy, a url is when it is not empty *)
Definition A2AClient_init (agent_card : option AgentCard) (url : option string)
  : result A2AClient :=
  match agent_card with
  | Some card => Ok {| client_url := card_url card |}
  | None =>
      match url with
      | Some (String a rest) => Ok {| client_url := String a rest |}
      | _ => Raise (ValueError "Either agent card or url must be provided")
      end
  end.

(** ** A concrete environment

    The scenario of the specification: one task ["t1"], a resolver that
    answers with two posts, and two variants of it, one that produces no
    event and one that fails. *)

Module Scenario.

(** a calendar of two instants *)
Definition isoformat (d : datetime) : string :=
  if d =? 0 then "1970-01-01T00:00:00" else "1970-01-01T00:00:00.000001".
Definition parse_datetime (iso : string) : option datetime :=
  if String.eqb iso "1970-01-01T00:00:00" then Some 0
  else if String.eqb iso "1970-01-01T00:00:00.000001" then Some 1
  else None.

Definition clock (n : nat) : datetime := Z.of_nat n.
Definition uuid (n : nat) : string :=
  if Nat.even n then "6f1c0a52a4b94d0e8f3e2b7c9d01a5e4"
  else "0b9d7e31c2f84a6f9a1d5c3e8b7f2a60".

(** an in-memory session service: the ids of the sessions it holds *)
Definition sessions := list string.
Definition get_session (sid : string) : M sessions bool :=
  fun ρ => (Ok (bool_decide (sid ∈ ρ)), ρ).
Definition create_session (sid : string) : M sessions unit :=
  fun ρ => (Ok tt, sid :: ρ).

Definition posts : string :=
  String.append "- post A" (String.append newline "- post B").

Definition run_posts (sid query : string) : M sessions (list Event) :=
  fun ρ => (Ok [{| content := Some {| content_parts :=
                     Some [{| part_text := Some posts |}] |} |}], ρ).
Definition run_silent (sid query : string) : M sessions (list Event) :=
  fun ρ => (Ok [], ρ).
Definition run_failing (sid query : string) : M sessions (list Event) :=
  fun ρ => (Raise (ExternalError "model unavailable"), ρ).

Definition empty_world : World sessions :=
  {| tasks := ∅; objs := []; lists := []; ticks := 0; draws := 0; runner := [] |}.

Definition ask (q : string) : Message :=
  {| role := user; parts := [{| text := q |}] |}.
Definition answer (a : string) : Message :=
  {| role := agent; parts := [{| text := a |}] |}.

Definition send (q : string) : SendTaskRequest :=
  {| sreq_id := IdInt 1;
     sreq_params := {| sp_id := "t1"; session_id := "s1"; message := ask q;
                       sp_historyLength := None; sp_metadata := None |} |}.
Definition send1 : SendTaskRequest := send "latest from r/golang".
Definition send2 : SendTaskRequest := send "and from r/rust".

Definition get (k : string) (n : option Z) : GetTaskRequest :=
  {| greq_id := IdInt 2;
     greq_params := {| qp_id := k; qp_metadata := None; qp_historyLength := n |} |}.

(** a [tasks/get] body that leaves out the optional keys, [id] among them *)
Definition bare_get : json :=
  JObj [("jsonrpc", JStr "2.0"); ("method", JStr "tasks/get");
        ("params", JObj [("id", JStr "t1")])].

(** the world after [send1] has been handled with [run_posts] *)
Definition world1 : World sessions :=
  {| tasks := {["t1" := 0%nat]};
     objs := [{| obj_id := "t1";
                 obj_status := {| state := "COMPLETED"; timestamp := 1 |};
                 obj_history := 0%nat |}];
     lists := [[ask "latest from r/golang"; answer posts]];
     ticks := 2; draws := 1; runner := ["s1"] |}.

(** a [tasks/send] for a second task *)
Definition send_other : SendTaskRequest :=
  {| sreq_id := IdInt 4;
     sreq_params := {| sp_id := "t2"; session_id := "s2";
                       message := ask "top of r/rocq";
                       sp_historyLength := None; sp_metadata := None |} |}.

(** a run of two events, the last with an empty part between two texts *)
Definition run_two_events (sid query : string) : M sessions (list Event) :=
  fun ρ => (Ok [{| content := Some {| content_parts :=
                     Some [{| part_text := Some "calling get_reddit_news" |}] |} |};
                {| content := Some {| content_parts :=
                     Some [{| part_text := Some "- post A" |};
                           {| part_text := Some "" |};
                           {| part_text := None |};
                           {| part_text := Some "- post B" |}] |} |}], ρ).

(** a [tasks/send] for a new id whose message has no parts *)
Definition send_no_parts : SendTaskRequest :=
  {| sreq_id := IdInt 3;
     sreq_params := {| sp_id := "t2"; session_id := "s1";
                       message := {| role := user; parts := [] |};
                       sp_historyLength := None; sp_metadata := None |} |}.

(** what a client passes to [send_task] for the first message of
    ["t1"], and the request that [send_task] builds from it in a process
    that has drawn no token yet *)
Definition payload1 : list (string * json) :=
  [("id", JStr "t1"); ("session_id", JStr "s1");
   ("message", dump_Message (ask "latest from r/golang"))].
Definition sent1 : SendTaskRequest :=
  {| sreq_id := IdStr (uuid 0); sreq_params := sreq_params send1 |}.

(** the card of a server on the default port, without skills *)
Definition card : AgentCard :=
  {| card_name := "RedditAgent";
     card_description :=
       "This agent replies fetched the latest posts from a given subreddit.";
     card_url := "http://localhost:10002/";
     card_version := "1.0.0";
     capabilities := {| streaming := false; pushNotifications := false;
                        stateTransitionHistory := false |};
     skills := [];
     defaultInputModes := SUPPORTED_CONTENT_TYPES;
     defaultOutputModes := SUPPORTED_CONTENT_TYPES |}.
Definition client : A2AClient := {| client_url := card_url card |}.

(** a server that answers every request with status 200 and a JSON-RPC
    error response, and one that answers with status 500 and a text *)
Definition error_body : list (string * json) :=
  [("jsonrpc", JStr "2.0"); ("id", JNull);
   ("error", JObj [("code", JInt (-32603)); ("message", JStr "Internal error")])].
Definition post_error_body (url : string) (content : json) : post_outcome :=
  Responded {| hx_status_code := 200; hx_status_error := None;
               hx_json := inr (JObj error_body) |}.
Definition post_unavailable (url : string) (content : json) : post_outcome :=
  Responded {| hx_status_code := 500;
               hx_status_error :=
                 Some "Server error '500 Internal Server Error' for url 'http://localhost:10002/'";
               hx_json := inl "Expecting value: line 1 column 1 (char 0)" |}.

(** the task ["t1"] as stored in [world1], and after [send2] is handled *)
Definition task1 : Task :=
  {| task_id := "t1";
     status := {| state := "COMPLETED"; timestamp := 1 |};
     history := [ask "latest from r/golang"; answer posts] |}.
Definition task2 : Task :=
  {| task_id := "t1";
     status := {| state := "COMPLETED"; timestamp := 2 |};
     history := [ask "latest from r/golang"; answer posts;
                 ask "and from r/rust"; answer posts] |}.

End Scenario.

Section Protocol.

(** ** The environment of the program *)

(** [datetime.isoformat] and pydantic's parser of ISO 8601 text *)
Variable isoformat : datetime -> string.
Variable parse_datetime : string -> option datetime.

(** what the [n]-th call of [datetime.now()] and of [uuid4().hex] returns *)
Variable clock : nat -> datetime.
Variable uuid : nat -> string.

(** The ADK runner with its session service: an external collaborator
    with a state of its own, each of whose calls may raise. *)
Context {R : Type}.
Variable get_session : string -> M R bool.      (* is there a session? *)
Variable create_session : string -> M R unit.
Variable runner_run : string -> string -> M R (list Event).
                                        (* session_id, query *)

(** ** Primitive effects *)

Definition datetime_now : M (World R) datetime :=
  fun w => (Ok (clock (ticks w)), set_ticks S w).

Definition uuid4_hex : M (World R) string :=
  fun w => (Ok (uuid (draws w)), set_draws S w).

(** [TaskStatus(state=s)]: the timestamp's default factory runs. *)
Definition new_TaskStatus (s : string) : M (World R) TaskStatus :=
  let! t := datetime_now in
  ret {| state := s; timestamp := t |}.

Definition alloc_list (h : list Message) : M (World R) loc :=
  fun w => (Ok (length (lists w)), set_lists (fun ls => ls ++ [h]) w).

Definition alloc_obj (o : TaskObj) : M (World R) loc :=
  fun w => (Ok (length (objs w)), set_objs (fun os => os ++ [o]) w).

Definition read_obj (l : loc) : M (World R) TaskObj :=
  fun w =>
    match objs w !! l with
    | Some o => (Ok o, w)
    | None => (Raise DanglingReference, w)
    end.

Definition read_list (l : loc) : M (World R) (list Message) :=
  fun w =>
    match lists w !! l with
    | Some h => (Ok h, w)
    | None => (Raise DanglingReference, w)
    end.

(** [lst.append(m)] on the list object at [l] *)
Definition list_append (l : loc) (m : Message) : M (World R) unit :=
  let! h := read_list l in
  fun w => (Ok tt, set_lists (fun ls => <[l := h ++ [m]]> ls) w).

(** [task.status = s] and [task.history = hl] on the object at [l] *)
Definition set_status (l : loc) (s : TaskStatus) : M (World R) unit :=
  let! o := read_obj l in
  fun w => (Ok tt, set_objs (fun os =>
     <[l := {| obj_id := obj_id o; obj_status := s; obj_history := obj_history o |}]> os) w).

Definition set_history (l : loc) (hl : loc) : M (World R) unit :=
  let! o := read_obj l in
  fun w => (Ok tt, set_objs (fun os =>
     <[l := {| obj_id := obj_id o; obj_status := obj_status o; obj_history := hl |}]> os) w).

(** [self.tasks.get(k)] and [self.tasks[k] = l] *)
Definition tasks_get (k : string) : M (World R) (option loc) :=
  fun w => (Ok (tasks w !! k), w).

Definition tasks_setitem (k : string) (l : loc) : M (World R) unit :=
  fun w => (Ok tt, set_tasks (fun t => <[k := l]> t) w).

(** a call into the agent, which has no access to the rest of the world *)
Definition external {A} (m : M R A) : M (World R) A :=
  fun w => (fst (m (runner w)), set_runner (snd (m (runner w))) w).

(** [logger.<method>(...)]: the attribute lookup comes first. *)
Definition logger_call (method : string) : M (World R) unit :=
  if bool_decide (method ∈ Logger_methods) then ret tt
  else raise (AttributeError method).

(** What a reference to a [Task] object shows in a world. *)
Definition view (w : World R) (l : loc) : option Task :=
  match objs w !! l with
  | Some o =>
      match lists w !! obj_history o with
      | Some h => Some {| task_id := obj_id o; status := obj_status o; history := h |}
      | None => None
      end
  | None => None
  end.

(** the task stored under an id *)
Definition stored (w : World R) (k : string) : option Task :=
  match tasks w !! k with
  | Some l => view w l
  | None => None
  end.

(** ** Validation of the models with default factories *)

(** [id: int | str | None = Field(default_factory=lambda: uuid4().hex)] *)
Definition validate_message_id (j : option json) : M (World R) rpc_id :=
  match j with
  | None => let! u := uuid4_hex in ret (IdStr u)
  | Some v => lift (validate_rpc_id v)
  end.

Definition validate_TaskSendParams (j : json) : M (World R) TaskSendParams :=
  match j with
  | JObj fs =>
      let! i := lift (validate_str "id" (field "id" fs)) in
      let! sid := match field "session_id" fs with
                  | None => uuid4_hex
                  | Some v => lift (validate_str "session_id" (Some v))
                  end in
      let! m := match field "message" fs with
                | Some v => lift (validate_Message v)
                | None => raise (ValidationError "message: Field required")
                end in
      let! hl := lift (validate_opt_int "historyLength" (field "historyLength" fs)) in
      let! md := lift (validate_metadata (field "metadata" fs)) in
      ret {| sp_id := i; session_id := sid; message := m;
             sp_historyLength := hl; sp_metadata := md |}
  | _ => raise (ValidationError "params: Input should be a valid dictionary or instance of TaskSendParams")
  end.

(** [A2ARequest.validate_python(body)]: the tag under ["method"] selects
    the model, which then validates the whole object. *)
Definition A2ARequest_validate_python (body : json) : M (World R) A2ARequest_t :=
  match body with
  | JObj fs =>
      match field "method" fs with
      | Some (JStr m) =>
          if String.eqb m "tasks/send" then
            let! _ := lift (validate_jsonrpc (field "jsonrpc" fs)) in
            let! i := validate_message_id (field "id" fs) in
            let! p := match field "params" fs with
                      | Some v => validate_TaskSendParams v
                      | None => raise (ValidationError "params: Field required")
                      end in
            ret (IsSendTaskRequest {| sreq_id := i; sreq_params := p |})
          else if String.eqb m "tasks/get" then
            let! _ := lift (validate_jsonrpc (field "jsonrpc" fs)) in
            let! i := validate_message_id (field "id" fs) in
            let! p := match field "params" fs with
                      | Some v => lift (validate_TaskQueryParams v)
                      | None => raise (ValidationError "params: Field required")
                      end in
            ret (IsGetTaskRequest {| greq_id := i; greq_params := p |})
          else raise (ValidationError
                 "Input tag does not match any of the expected tags: 'tasks/send', 'tasks/get'")
      | _ => raise (ValidationError "Unable to extract tag using discriminator 'method'")
      end
  | _ => raise (ValidationError "Input should be a valid dictionary or object to extract fields from")
  end.

(** ** Wire encoding of requests, tasks and responses *)

Definition dump_opt_int (o : option Z) : json :=
  match o with Some z => JInt z | None => JNull end.

Definition dump_metadata (o : metadata_t) : json :=
  match o with Some fs => JObj fs | None => JNull end.

Definition dump_TaskQueryParams (p : TaskQueryParams) : json :=
  JObj [("id", JStr (qp_id p));
        ("metadata", dump_metadata (qp_metadata p));
        ("historyLength", dump_opt_int (qp_historyLength p))].

Definition dump_TaskSendParams (p : TaskSendParams) : json :=
  JObj [("id", JStr (sp_id p));
        ("session_id", JStr (session_id p));
        ("message", dump_Message (message p));
        ("historyLength", dump_opt_int (sp_historyLength p));
        ("metadata", dump_metadata (sp_metadata p))].

(** [request.model_dump()], as the client posts it *)
Definition dump_GetTaskRequest (r : GetTaskRequest) : json :=
  JObj [("jsonrpc", JStr "2.0");
        ("id", dump_rpc_id (greq_id r));
        ("method", JStr "tasks/get");
        ("params", dump_TaskQueryParams (greq_params r))].

Definition dump_SendTaskRequest (r : SendTaskRequest) : json :=
  JObj [("jsonrpc", JStr "2.0");
        ("id", dump_rpc_id (sreq_id r));
        ("method", JStr "tasks/send");
        ("params", dump_TaskSendParams (sreq_params r))].

Definition dump_TaskStatus (s : TaskStatus) : json :=
  JObj [("state", JStr (state s));
        ("timestamp", JStr (isoformat (timestamp s)))].

(** the wire shape of a task *)
Definition dump_Task (t : Task) : json :=
  JObj [("id", JStr (task_id t));
        ("status", dump_TaskStatus (status t));
        ("history", JArr (map dump_Message (history t)))].

Definition validate_TaskStatus (j : json) : result TaskStatus :=
  match j with
  | JObj fs =>
      result_bind (validate_str "state" (field "state" fs)) (fun s =>
      result_bind
        (match field "timestamp" fs with
         | Some (JStr iso) =>
             match parse_datetime iso with
             | Some d => Ok d
             | None => Raise (ValidationError "timestamp: Input should be a valid datetime")
             end
         | Some _ => Raise (ValidationError "timestamp: Input should be a valid datetime")
         | None => Raise (ValidationError "timestamp: Field required")
         end) (fun d =>
      Ok {| state := s; timestamp := d |}))
  | _ => Raise (ValidationError "status: Input should be a valid dictionary or instance of TaskStatus")
  end.


(** following a reference, as serialization does *)
Definition deref (l : loc) : M (World R) Task :=
  fun w =>
    match view w l with
    | Some t => (Ok t, w)
    | None => (Raise DanglingReference, w)
    end.

Definition dump_error_exclude_none (e : JSONRPCError) : json :=
  JObj ([("code", JInt (code e)); ("message", JStr (err_message e))]
        ++ match data e with Some d => [("data", d)] | None => [] end).

(** [jsonable_encoder(result.model_dump(exclude_none=True))] *)
Definition dump_response_exclude_none (r : JSONRPCResponse) : M (World R) json :=
  let! res := match resp_result r with
              | Some l => let! t := deref l in ret [("result", dump_Task t)]
              | None => ret []
              end in
  ret (JObj ([("jsonrpc", JStr "2.0")]
             ++ match resp_id r with
                | IdNone => []
                | i => [("id", dump_rpc_id i)]
                end
             ++ res
             ++ match resp_error r with
                | Some e => [("error", dump_error_exclude_none e)]
                | None => []
                end)).

(** [JSONRPCResponse(id=None, error=e).model_dump()] *)
Definition dump_error_response (e : JSONRPCError) : json :=
  JObj [("jsonrpc", JStr "2.0"); ("id", JNull); ("result", JNull);
        ("error", dump_JSONRPCError e)].

(** ** agent/agent.py: [RedditAgent.invoke] *)

(** [events[-1].content.parts] when the guard
    [not events or not events[-1].content or not events[-1].content.parts]
    is false *)
Definition last_parts (events : list Event) : option (list GenaiPart) :=
  match last events with
  | Some ev =>
      match content ev with
      | Some c =>
          match content_parts c with
          | Some (p :: ps) => Some (p :: ps)
          | _ => None
          end
      | None => None
      end
  | None => None
  end.

(** [part.text] when it is truthy *)
Definition truthy_text (p : GenaiPart) : option string :=
  match part_text p with
  | Some EmptyString => None
  | Some s => Some s
  | None => None
  end.

Definition invoke (query sid : string) : M R string :=
  let! session := get_session sid in
  let! _ := (if session then ret tt else create_session sid) in
  let! events := runner_run sid query in
  match last_parts events with
  | None => ret "No response from agent"
  | Some ps => ret (join newline (omap truthy_text ps))
  end.

(** ** server/task_manager.py: [InMemoryTaskManager] *)

Definition upsert_task (params : TaskSendParams) : M (World R) loc :=
  let! task := tasks_get (sp_id params) in
  match task with
  | None =>
      let! st := new_TaskStatus (TaskState_value SUBMITTED) in
      let! h := alloc_list [message params] in
      let! t := alloc_obj {| obj_id := sp_id params; obj_status := st; obj_history := h |} in
      let! _ := tasks_setitem (sp_id params) t in
      ret t
  | Some t =>
      let! o := read_obj t in
      let! _ := list_append (obj_history o) (message params) in
      ret t
  end.

Definition on_get_task (request : GetTaskRequest) : M (World R) GetTaskResponse :=
  let query := greq_params request in
  let! task := tasks_get (qp_id query) in
  match task with
  | None =>
      (* [GetTaskResponse(id=request.id, error={"message": "Task not found"})]:
         the dict is validated against [JSONRPCError] *)
      let! err := lift (validate_JSONRPCError (JObj [("message", JStr "Task not found")])) in
      ret {| resp_id := greq_id request; resp_result := None; resp_error := Some err |}
  | Some t =>
      (* [task.model_copy()]: a new object with the same attribute values *)
      let! o := read_obj t in
      let! task_copy := alloc_obj o in
      let! _ :=
        match qp_historyLength query with
        | Some n =>
            let! h := read_list (obj_history o) in
            let! trimmed := alloc_list (slice_from (- n) h) in
            set_history task_copy trimmed
        | None => set_history task_copy (obj_history o)
        end in
      ret {| resp_id := greq_id request; resp_result := Some task_copy; resp_error := None |}
  end.

(** ** agent/task_manager.py: [RedditAgentTaskManager] *)

Definition _get_user_query (request : SendTaskRequest) : M (World R) string :=
  match parts (message (sreq_params request)) with
  | p :: _ => ret (text p)
  | [] => raise (IndexError "list index out of range")
  end.

Definition on_send_task (request : SendTaskRequest) : M (World R) SendTaskResponse :=
  let! task := upsert_task (sreq_params request) in
  let! query := _get_user_query request in
  let! response_text := external (invoke query (session_id (sreq_params request))) in
  let agent_response := {| role := agent; parts := [{| text := response_text |}] |} in
  let! _ := logger_call "info" in
  let! st := new_TaskStatus "COMPLETED" in
  let! _ := set_status task st in
  let! o := read_obj task in
  let! _ := list_append (obj_history o) agent_response in
  let! i := uuid4_hex in
  ret {| resp_id := IdStr i; resp_result := Some task; resp_error := None |}.

(** Steps 2 to 5 of [on_send_task], what follows [upsert_task], with
    [task] the reference it returned. *)
Definition on_send_task_reply (request : SendTaskRequest) (task : loc)
  : M (World R) SendTaskResponse :=
  let! query := _get_user_query request in
  let! response_text := external (invoke query (session_id (sreq_params request))) in
  let agent_response := {| role := agent; parts := [{| text := response_text |}] |} in
  let! _ := logger_call "info" in
  let! st := new_TaskStatus "COMPLETED" in
  let! _ := set_status task st in
  let! o := read_obj task in
  let! _ := list_append (obj_history o) agent_response in
  let! i := uuid4_hex in
  ret {| resp_id := IdStr i; resp_result := Some task; resp_error := None |}.

(** ** server/server.py: [A2AServer] *)

Record JSONResponse : Type := { status_code : Z; body : json }.

Definition create_response (result : JSONRPCResponse) : M (World R) JSONResponse :=
  let! c := dump_response_exclude_none result in
  ret {| status_code := 200; body := c |}.

(** the [try] block of [handle_request]; [request_json] is the outcome of
    [await request.json()] *)
Definition handle_request_try (request_json : result json) : M (World R) JSONResponse :=
  let! body := lift request_json in
  let! _ := logger_call "info" in
  let! json_rpc := A2ARequest_validate_python body in
  let! result :=
    match json_rpc with
    | IsSendTaskRequest r => on_send_task r
    | IsGetTaskRequest _ =>
        raise (ValueError
          "Unsupported A2A method: <class 'models.request.GetTaskRequest'>")
    end in
  create_response result.

(** the [except Exception as e] clause *)
Definition handle_request_except (e : exn) : M (World R) JSONResponse :=
  let! _ := logger_call "errorr" in
  ret {| status_code := 400;
         body := dump_error_response (InternalError (str_exn e)) |}.

(** [POST /]: a result [Raise e] is an exception that leaves the handler. *)
Definition handle_request (request_json : result json) : M (World R) JSONResponse :=
  try_except (handle_request_try request_json) handle_request_except.

(** [GET /.well-known/agent.json]; [agent_card] is [None] for a server
    built without a card. *)
Definition get_agent_card (agent_card : option AgentCard) : result JSONResponse :=
  match agent_card with
  | Some card => Ok {| status_code := 200; body := dump_AgentCard card |}
  | None => Raise (AttributeError "model_dump")
  end.

(** the guard of [A2AServer.start], before [uvicorn.run] *)
Definition start_guard (agent_card : option AgentCard) (has_task_manager : bool)
  : result unit :=
  match agent_card, has_task_manager with
  | Some _, true => Ok tt
  | _, _ => Raise (ValueError "Agent card and task manager are required")
  end.

(** ** agent/agent.py: the tool [get_reddit_news] *)

(** Reddit as [praw] gives it: the credentials read from the environment,
    the client built from them and the hot posts of a subreddit listed,
    [list(reddit.subreddit(name).hot(limit=limit))], any step of which
    may raise. *)
Context {P : Type}.
Variable hot : string -> Z -> M P (list Submission).

Definition get_reddit_news (subreddit : string) (limit : Z)
  : M P (gmap string (list string)) :=
  try_except
    (let! posts := hot subreddit limit in
     let titles := map title posts in
     ret {[subreddit := titles]})
    (fun e =>
       let! _ := logger_method "errorint" in
       ret {[subreddit :=
               [String.append "An unexpected error occurred while fetching from r/"
                  (String.append subreddit ".")]]}).

(** ** client/client.py: [A2AClient] *)

(** [await client.post(url, json=body, timeout=30)], as far as the
    client reads the response *)
Variable post : string -> json -> post_outcome.

Definition _send_request (self : A2AClient) (request : SendTaskRequest)
  : client_exn + json :=
  match post (client_url self) (dump_SendTaskRequest request) with
  | Responded response =>
      match hx_status_error response with
      | Some msg => inl (A2AClientHTTPError (hx_status_code response) msg)
      | None =>
          match hx_json response with
          | inl msg => inl (A2AClientJSONError msg)
          | inr j => inr j
          end
      end
  | PostFailed what => inl (HttpxError what)
  end.

(** [TaskStatus] built from keyword arguments: a missing [timestamp]
    takes [datetime.now()]. *)
Definition TaskStatus_of (j : json) : M (World R) TaskStatus :=
  match j with
  | JObj fs =>
      match field "timestamp" fs with
      | None =>
          let! t := datetime_now in
          let! st := lift (validate_str "state" (field "state" fs)) in
          ret {| state := st; timestamp := t |}
      | Some _ => lift (validate_TaskStatus j)
      end
  | _ => lift (validate_TaskStatus j)
  end.

(** [Task] built from the keys of a decoded object as keyword arguments;
    of the errors that pydantic collects, the first one is reported. *)
Definition Task_of (fs : list (string * json)) : M (World R) Task :=
  let! i := lift (validate_str "id" (field "id" fs)) in
  let! st := match field "status" fs with
             | Some v => TaskStatus_of v
             | None => raise (ValidationError "status: Field required")
             end in
  let! h := match field "history" fs with
            | Some (JArr items) => lift (result_mapM validate_Message items)
            | Some _ => raise (ValidationError "history: Input should be a valid list")
            | None => raise (ValidationError "history: Field required")
            end in
  ret {| task_id := i; status := st; history := h |}.

(** [SendTaskRequest(id=uuid4().hex, params=TaskSendParams(..payload..))],
    the arguments evaluated from left to right *)
Definition new_send_request (payload : list (string * json)) : M (World R) SendTaskRequest :=
  let! i := uuid4_hex in
  let! params := validate_TaskSendParams (JObj payload) in
  ret {| sreq_id := IdStr i; sreq_params := params |}.

(** [response["result"]] and the call of [Task] on its keys *)
Definition Task_of_response (response : json) (w : World R) : (client_exn + Task) * World R :=
  match response with
  | JObj fs =>
      match field "result" fs with
      | None => (inl (KeyError "result"), w)
      | Some (JObj kwargs) =>
          match Task_of kwargs w with
          | (Ok t, w') => (inr t, w')
          | (Raise e, w') => (inl (Propagated e), w')
          end
      | Some _ => (inl (TypeError "argument after ** must be a mapping"), w)
      end
  | _ => (inl (TypeError "indices must be integers or the object is not subscriptable"), w)
  end.

(** [A2AClient.send_task], in the world of the client's process *)
Definition send_task (self : A2AClient) (payload : list (string * json)) (w : World R)
  : (client_exn + Task) * World R :=
  match new_send_request payload w with
  | (Raise e, w1) => (inl (Propagated e), w1)
  | (Ok request, w1) =>
      match _send_request self request with
      | inl e => (inl e, w1)
      | inr response => Task_of_response response w1
      end
  end.

(** the response the client reads when the server answers with [r] and
    the transport delivers it: the body decodes to the content of [r],
    and [raise_for_status()] raises, with the text [status_text], for a
    status of 400 and above and passes below (the server answers with
    200 or 400 only) *)
Definition delivered (status_text : string) (r : JSONResponse) : post_outcome :=
  Responded {| hx_status_code := status_code r;
               hx_status_error := if 400 <=? status_code r then Some status_text else None;
               hx_json := inr (body r) |}.

(** ** Sequences of manager calls *)

Inductive Op : Type :=
| OpUpsert (params : TaskSendParams)
| OpSend (request : SendTaskRequest)
| OpGet (request : GetTaskRequest).

Definition run_op (op : Op) (w : World R) : World R :=
  match op with
  | OpUpsert p => snd (upsert_task p w)
  | OpSend r => snd (on_send_task r w)
  | OpGet r => snd (on_get_task r w)
  end.

Definition run_ops (ops : list Op) (w : World R) : World R :=
  foldl (fun w op => run_op op w) w ops.


(** ** Well-formed worlds and how they evolve *)

(** [l] is the address of a stored [Task] object *)
Definition stored_obj (w : World R) (l : loc) : Prop :=
  ∃ k, tasks w !! k = Some l.

(** [hl] is the address of the history list of a stored [Task] object *)
Definition stored_list (w : World R) (hl : loc) : Prop :=
  ∃ k l o, tasks w !! k = Some l ∧ objs w !! l = Some o ∧ obj_history o = hl.

(** What every world reached by the program satisfies: a stored reference
    leads to an object and on to its history list, and two ids never
    share a history list. *)
Definition wf_world (w : World R) : Prop :=
  (∀ k l, tasks w !! k = Some l → is_Some (view w l)) ∧
  (∀ k1 k2 l1 l2 o1 o2,
     tasks w !! k1 = Some l1 → tasks w !! k2 = Some l2 →
     objs w !! l1 = Some o1 → objs w !! l2 = Some o2 →
     obj_history o1 = obj_history o2 → k1 = k2).

(** [w'] is a later state of [w]: stored references stay, new ids get
    new objects with new lists, objects keep their id and their history
    list, lists only grow, and what the table does not reach is left as
    it is. *)
Record evolves (w w' : World R) : Prop := {
  ev_tasks : ∀ k l, tasks w !! k = Some l → tasks w' !! k = Some l;
  ev_fresh : ∀ k l, tasks w !! k = None → tasks w' !! k = Some l →
      (length (objs w) ≤ l)%nat ∧
      ∀ o, objs w' !! l = Some o → (length (lists w) ≤ obj_history o)%nat;
  ev_objs : ∀ l o, objs w !! l = Some o →
      ∃ o', objs w' !! l = Some o' ∧ obj_id o' = obj_id o ∧
            obj_history o' = obj_history o ∧ (¬ stored_obj w l → o' = o);
  ev_lists : ∀ l h, lists w !! l = Some h →
      ∃ h', lists w' !! l = Some h' ∧ h `prefix_of` h' ∧
            (¬ stored_list w l → h' = h);
}.

(** A reference the table does not reach, neither the object nor its
    history list. *)
Definition detached (w : World R) (l : loc) : Prop :=
  is_Some (view w l) ∧ ¬ stored_obj w l ∧
  ∀ o, objs w !! l = Some o → ¬ stored_list w (obj_history o).

(** a computation that touches neither the table nor the heap *)
Definition keeps_store {A} (m : M (World R) A) : Prop :=
  ∀ w, tasks (snd (m w)) = tasks w ∧ objs (snd (m w)) = objs w ∧
       lists (snd (m w)) = lists w.

(** What the specification says [upsert] leaves under [sp_id params]:
    a new task with status [submitted] and the message as its history,
    or the existing task with the message appended. *)
Definition upsert_spec (w : World R) (params : TaskSendParams) : Task :=
  match stored w (sp_id params) with
  | None =>
      {| task_id := sp_id params;
         status := {| state := TaskState_value SUBMITTED; timestamp := clock (ticks w) |};
         history := [message params] |}
  | Some t =>
      {| task_id := task_id t; status := status t;
         history := history t ++ [message params] |}
  end.

(** the id an operation is about *)
Definition op_id (op : Op) : string :=
  match op with
  | OpUpsert p => sp_id p
  | OpSend r => sp_id (sreq_params r)
  | OpGet r => qp_id (greq_params r)
  end.

(** whether [handle_request] gets as far as calling [on_send_task]: the
    body was decoded and validation resolves it to a [SendTaskRequest] *)
Definition dispatches_send (request_json : result json) (w : World R) : bool :=
  match request_json with
  | Ok body =>
      match fst (A2ARequest_validate_python body w) with
      | Ok (IsSendTaskRequest _) => true
      | _ => false
      end
  | Raise _ => false
  end.

(** ** Properties of the heap *)

Lemma view_Some (w : World R) l t :
  view w l = Some t ↔
  ∃ o h, objs w !! l = Some o ∧ lists w !! obj_history o = Some h ∧
         t = {| task_id := obj_id o; status := obj_status o; history := h |}.
Proof.
  unfold view. split.
  - destruct (objs w !! l) as [o|]; [|done].
    destruct (lists w !! obj_history o) as [h|] eqn:E; [|done].
    intros [= <-]. eauto.
  - intros (o & h & -> & -> & ->). done.
Qed.

Lemma wf_stored_obj (w : World R) k l :
  wf_world w → tasks w !! k = Some l →
  ∃ o h, objs w !! l = Some o ∧ lists w !! obj_history o = Some h.
Proof.
  intros [Hv _] Hk. destruct (Hv k l Hk) as [t Ht].
  apply view_Some in Ht as (o & h & ? & ? & _). eauto.
Qed.

Lemma wf_world_empty (w : World R) : tasks w = ∅ → wf_world w.
Proof.
  intros Ht. split.
  - intros k l. by rewrite Ht, lookup_empty.
  - intros k1 k2 l1 l2 o1 o2. by rewrite Ht, lookup_empty.
Qed.

Lemma evolves_refl (w : World R) : evolves w w.
Proof.
  split.
  - done.
  - intros k l H1 H2. rewrite H1 in H2. done.
  - intros l o Ho. exists o. done.
  - intros l h Hl. exists h. done.
Qed.

Lemma evolves_length_objs (w w' : World R) :
  evolves w w' → (length (objs w) ≤ length (objs w'))%nat.
Proof.
  intros Hev. destruct (objs w) as [|o os] eqn:E using rev_ind; [simpl; lia|].
  clear IHos. destruct (ev_objs _ _ Hev (length os) o) as (o' & Ho' & _).
  { rewrite E. by rewrite lookup_app_r, Nat.sub_diag by lia. }
  apply lookup_lt_Some in Ho'. rewrite length_app. simpl. lia.
Qed.

Lemma evolves_length_lists (w w' : World R) :
  evolves w w' → (length (lists w) ≤ length (lists w'))%nat.
Proof.
  intros Hev. destruct (lists w) as [|o os] eqn:E using rev_ind; [simpl; lia|].
  clear IHos. destruct (ev_lists _ _ Hev (length os) o) as (o' & Ho' & _).
  { rewrite E. by rewrite lookup_app_r, Nat.sub_diag by lia. }
  apply lookup_lt_Some in Ho'. rewrite length_app. simpl. lia.
Qed.

(** what the table did not reach, it does not reach later *)
Lemma evolves_not_stored_obj (w w' : World R) l :
  evolves w w' → (l < length (objs w))%nat →
  ¬ stored_obj w l → ¬ stored_obj w' l.
Proof.
  intros Hev Hl Hn [k Hk]. destruct (tasks w !! k) as [l0|] eqn:E.
  - apply (ev_tasks _ _ Hev) in E as E'. apply Hn. exists k. congruence.
  - destruct (ev_fresh _ _ Hev k l E Hk) as [? _]. lia.
Qed.

Lemma evolves_not_stored_list (w w' : World R) hl :
  wf_world w → evolves w w' → (hl < length (lists w))%nat →
  ¬ stored_list w hl → ¬ stored_list w' hl.
Proof.
  intros Hwf Hev Hl Hn (k & l & o' & Hk & Ho' & Hh).
  destruct (tasks w !! k) as [l0|] eqn:E.
  - apply (ev_tasks _ _ Hev) in E as E'.
    assert (l0 = l) as -> by congruence.
    destruct (wf_stored_obj _ _ _ Hwf E) as (o & h & Ho & _).
    destruct (ev_objs _ _ Hev l o Ho) as (o2 & Ho2 & _ & Hh2 & _).
    apply Hn. exists k, l, o. split_and!; [done..|]. congruence.
  - destruct (ev_fresh _ _ Hev k l E Hk) as [_ Hf].
    specialize (Hf o' Ho'). lia.
Qed.

Lemma evolves_trans (w1 w2 w3 : World R) :
  wf_world w1 → wf_world w2 → evolves w1 w2 → evolves w2 w3 → evolves w1 w3.
Proof.
  intros Hwf1 Hwf2 H12 H23. split.
  - intros k l Hk. by apply (ev_tasks _ _ H23), (ev_tasks _ _ H12).
  - intros k l Hn Hk. destruct (tasks w2 !! k) as [l2|] eqn:E.
    + apply (ev_tasks _ _ H23) in E as E'. assert (l2 = l) as -> by congruence.
      destruct (ev_fresh _ _ H12 k l Hn E) as [Hl Hf]. split; [done|].
      intros o3 Ho3.
      destruct (wf_stored_obj _ _ _ Hwf2 E) as (o2 & h & Ho2 & _).
      destruct (ev_objs _ _ H23 l o2 Ho2) as (o3' & Ho3' & _ & Hh & _).
      assert (o3' = o3) as -> by congruence. rewrite Hh. by apply Hf.
    + destruct (ev_fresh _ _ H23 k l E Hk) as [Hl Hf].
      pose proof (evolves_length_objs _ _ H12).
      pose proof (evolves_length_lists _ _ H12).
      split; [lia|]. intros o Ho. specialize (Hf o Ho). lia.
  - intros l o Ho.
    destruct (ev_objs _ _ H12 l o Ho) as (o2 & Ho2 & Hi2 & Hh2 & Hs2).
    destruct (ev_objs _ _ H23 l o2 Ho2) as (o3 & Ho3 & Hi3 & Hh3 & Hs3).
    exists o3. split_and!; [done|congruence|congruence|].
    intros Hn. rewrite Hs3, Hs2; [done..|].
    apply (evolves_not_stored_obj w1); [done| |done].
    by apply lookup_lt_Some in Ho.
  - intros l h Hl.
    destruct (ev_lists _ _ H12 l h Hl) as (h2 & Hl2 & Hp2 & Hs2).
    destruct (ev_lists _ _ H23 l h2 Hl2) as (h3 & Hl3 & Hp3 & Hs3).
    exists h3. split_and!; [done|by etrans|].
    intros Hn. rewrite Hs3, Hs2; [done..|].
    apply (evolves_not_stored_list w1); [done..| |done].
    by apply lookup_lt_Some in Hl.
Qed.

(** *** The four ways the program changes the heap *)

(** allocation of objects and lists that the table does not reach *)
Lemma step_alloc (w w' : World R) os ls :
  tasks w' = tasks w → objs w' = objs w ++ os → lists w' = lists w ++ ls →
  wf_world w → wf_world w' ∧ evolves w w'.
Proof.
  intros Ht Ho Hl Hwf.
  assert (Hobj : ∀ l o, objs w !! l = Some o → objs w' !! l = Some o).
  { intros l o H. rewrite Ho. by apply lookup_app_l_Some. }
  assert (Hlist : ∀ l h, lists w !! l = Some h → lists w' !! l = Some h).
  { intros l h H. rewrite Hl. by apply lookup_app_l_Some. }
  split; split.
  - intros k l Hk. rewrite Ht in Hk.
    destruct (wf_stored_obj _ _ _ Hwf Hk) as (o & h & H1 & H2).
    eexists. apply view_Some. exists o, h. eauto.
  - intros k1 k2 l1 l2 o1 o2 H1 H2 H3 H4 H5. rewrite Ht in H1, H2.
    destruct (wf_stored_obj _ _ _ Hwf H1) as (o1' & ? & Ho1 & _).
    destruct (wf_stored_obj _ _ _ Hwf H2) as (o2' & ? & Ho2 & _).
    apply Hobj in Ho1 as Ho1'. apply Hobj in Ho2 as Ho2'.
    assert (o1' = o1) as -> by congruence.
    assert (o2' = o2) as -> by congruence.
    destruct Hwf as [_ Hinj]. eapply Hinj; eauto.
  - intros k l Hk. by rewrite Ht.
  - intros k l Hn Hk. rewrite Ht in Hk. congruence.
  - intros l o H. exists o. eauto.
  - intros l h H. exists h. eauto.
Qed.

(** [append] on the history list of a stored task *)
Lemma step_list_append (w w' : World R) hl h m :
  tasks w' = tasks w → objs w' = objs w →
  lists w !! hl = Some h → lists w' = <[hl := h ++ m]> (lists w) →
  stored_list w hl →
  wf_world w → wf_world w' ∧ evolves w w'.
Proof.
  intros Ht Ho Hh Hl Hst Hwf.
  assert (Hlist : ∀ l x, lists w !! l = Some x →
            ∃ x', lists w' !! l = Some x' ∧ x `prefix_of` x' ∧ (l ≠ hl → x' = x)).
  { intros l x H. rewrite Hl. destruct (decide (l = hl)) as [->|Hne].
    - exists (h ++ m). rewrite list_lookup_insert_eq by by eapply lookup_lt_Some.
      assert (x = h) as -> by congruence.
      split_and!; [done|by apply prefix_app_r|done].
    - exists x. by rewrite list_lookup_insert_ne. }
  split; split.
  - intros k l Hk. rewrite Ht in Hk.
    destruct (wf_stored_obj _ _ _ Hwf Hk) as (o & x & H1 & H2).
    destruct (Hlist _ _ H2) as (x' & Hx' & _).
    eexists. apply view_Some. exists o, x'. rewrite Ho. eauto.
  - rewrite Ht, Ho. apply Hwf.
  - intros k l Hk. by rewrite Ht.
  - intros k l Hn Hk. rewrite Ht in Hk. congruence.
  - intros l o H. exists o. rewrite Ho. eauto.
  - intros l x H. destruct (Hlist _ _ H) as (x' & ? & ? & Hne).
    exists x'. split_and!; [done..|]. intros Hns. apply Hne. by intros ->.
Qed.

(** assignment to [status] on a stored task *)
Lemma step_set_status (w w' : World R) l o s :
  tasks w' = tasks w → lists w' = lists w →
  objs w !! l = Some o →
  objs w' = <[l := {| obj_id := obj_id o; obj_status := s;
                      obj_history := obj_history o |}]> (objs w) →
  stored_obj w l →
  wf_world w → wf_world w' ∧ evolves w w'.
Proof.
  intros Ht Hl Hl_o Ho Hst Hwf.
  assert (Hobj : ∀ l1 o1, objs w !! l1 = Some o1 →
            ∃ o1', objs w' !! l1 = Some o1' ∧ obj_id o1' = obj_id o1 ∧
                   obj_history o1' = obj_history o1 ∧ (l1 ≠ l → o1' = o1)).
  { intros l1 o1 H. rewrite Ho. destruct (decide (l1 = l)) as [->|Hne].
    - eexists. rewrite list_lookup_insert_eq by by eapply lookup_lt_Some.
      assert (o1 = o) as -> by congruence. done.
    - exists o1. by rewrite list_lookup_insert_ne. }
  split; split.
  - intros k l1 Hk. rewrite Ht in Hk.
    destruct (wf_stored_obj _ _ _ Hwf Hk) as (o1 & x & H1 & H2).
    destruct (Hobj _ _ H1) as (o1' & Ho1' & _ & Hh & _).
    eexists. apply view_Some. exists o1', x. rewrite Hl, Hh. eauto.
  - intros k1 k2 l1 l2 o1 o2 H1 H2 H3 H4 H5. rewrite Ht in H1, H2.
    destruct (wf_stored_obj _ _ _ Hwf H1) as (o1' & ? & Ho1 & _).
    destruct (wf_stored_obj _ _ _ Hwf H2) as (o2' & ? & Ho2 & _).
    destruct (Hobj _ _ Ho1) as (p1 & Hp1 & _ & Hh1 & _).
    destruct (Hobj _ _ Ho2) as (p2 & Hp2 & _ & Hh2 & _).
    assert (p1 = o1) as -> by congruence.
    assert (p2 = o2) as -> by congruence.
    destruct Hwf as [_ Hinj]. eapply (Hinj k1 k2); eauto. congruence.
  - intros k l1 Hk. by rewrite Ht.
  - intros k l1 Hn Hk. rewrite Ht in Hk. congruence.
  - intros l1 o1 H. destruct (Hobj _ _ H) as (o1' & ? & ? & ? & Hne).
    exists o1'. split_and!; [done..|]. intros Hns. apply Hne. by intros ->.
  - intros l1 x H. exists x. rewrite Hl. eauto.
Qed.

(** a new task under an id the table does not have *)
Lemma step_new_task (w w' : World R) k o h :
  tasks w !! k = None →
  tasks w' = <[k := length (objs w)]> (tasks w) →
  objs w' = objs w ++ [o] → obj_history o = length (lists w) →
  lists w' = lists w ++ [h] →
  wf_world w → wf_world w' ∧ evolves w w'.
Proof.
  intros Hk Ht Ho Hh Hl Hwf.
  assert (Hobj : ∀ l x, objs w !! l = Some x → objs w' !! l = Some x).
  { intros l x H. rewrite Ho. by apply lookup_app_l_Some. }
  assert (Hlist : ∀ l x, lists w !! l = Some x → lists w' !! l = Some x).
  { intros l x H. rewrite Hl. by apply lookup_app_l_Some. }
  assert (Hnew : objs w' !! length (objs w) = Some o).
  { rewrite Ho. by rewrite lookup_app_r, Nat.sub_diag by lia. }
  assert (Hold : ∀ k1 l1, tasks w' !! k1 = Some l1 →
            (k1 = k ∧ l1 = length (objs w)) ∨ (k1 ≠ k ∧ tasks w !! k1 = Some l1)).
  { intros k1 l1. rewrite Ht. destruct (decide (k = k1)) as [->|Hne].
    - rewrite lookup_insert_eq. intros [= <-]. by left.
    - rewrite lookup_insert_ne by done. intros. right. split; [by intros ->|done]. }
  split; split.
  - intros k1 l1 Hk1. destruct (Hold _ _ Hk1) as [[-> ->]|[_ Hk1']].
    + eexists. apply view_Some. exists o, h. split_and!; [done| |done].
      rewrite Hl, Hh. by rewrite lookup_app_r, Nat.sub_diag by lia.
    + destruct (wf_stored_obj _ _ _ Hwf Hk1') as (o1 & x & H1 & H2).
      eexists. apply view_Some. exists o1, x. eauto.
  - intros k1 k2 l1 l2 o1 o2 H1 H2 H3 H4 H5.
    destruct (Hold _ _ H1) as [[-> ->]|[_ H1']];
      destruct (Hold _ _ H2) as [[-> ->]|[_ H2']]; [done| | |].
    + destruct (wf_stored_obj _ _ _ Hwf H2') as (o2' & x & Ho2 & Hx).
      assert (o2' = o2) as -> by (apply Hobj in Ho2; congruence).
      assert (o1 = o) as -> by congruence.
      apply lookup_lt_Some in Hx. lia.
    + destruct (wf_stored_obj _ _ _ Hwf H1') as (o1' & x & Ho1 & Hx).
      assert (o1' = o1) as -> by (apply Hobj in Ho1; congruence).
      assert (o2 = o) as -> by congruence.
      apply lookup_lt_Some in Hx. lia.
    + destruct (wf_stored_obj _ _ _ Hwf H1') as (o1' & ? & Ho1 & _).
      destruct (wf_stored_obj _ _ _ Hwf H2') as (o2' & ? & Ho2 & _).
      assert (o1' = o1) as -> by (apply Hobj in Ho1; congruence).
      assert (o2' = o2) as -> by (apply Hobj in Ho2; congruence).
      destruct Hwf as [_ Hinj]. eapply (Hinj k1 k2); eauto.
  - intros k1 l1 Hk1. rewrite Ht. rewrite lookup_insert_ne; [done|]. congruence.
  - intros k1 l1 Hn Hk1. destruct (Hold _ _ Hk1) as [[-> ->]|[_ Hk1']]; [|congruence].
    split; [done|]. intros o1 Ho1. assert (o1 = o) as -> by congruence. lia.
  - intros l x H. exists x. eauto.
  - intros l x H. exists x. eauto.
Qed.

(** ** The operations, step by step *)

Lemma on_send_task_unfold request :
  on_send_task request =
  bind (upsert_task (sreq_params request)) (on_send_task_reply request).
Proof. reflexivity. Qed.

Lemma logger_call_info : logger_call "info" = ret tt.
Proof. reflexivity. Qed.

Lemma logger_call_errorr : logger_call "errorr" = raise (AttributeError "errorr").
Proof. reflexivity. Qed.

Lemma lookup_snoc_length {A} (l : list A) x : (l ++ [x]) !! length l = Some x.
Proof. by apply list_lookup_middle. Qed.

Lemma insert_snoc_length {A} (l : list A) x y : <[length l := y]> (l ++ [x]) = l ++ [y].
Proof. rewrite insert_app_r_alt by lia. by rewrite Nat.sub_diag. Qed.

Lemma upsert_task_fresh (w : World R) params :
  tasks w !! sp_id params = None →
  upsert_task params w =
  (Ok (length (objs w)),
   set_tasks (λ t, <[sp_id params := length (objs w)]> t)
     (set_objs (λ os, os ++ [{| obj_id := sp_id params;
                               obj_status := {| state := "submitted";
                                                timestamp := clock (ticks w) |};
                               obj_history := length (lists w) |}])
        (set_lists (λ ls, ls ++ [[message params]]) (set_ticks S w)))).
Proof.
  intros Hk. unfold upsert_task, bind, tasks_get. rewrite Hk. reflexivity.
Qed.

Lemma upsert_task_existing (w : World R) params l o h :
  tasks w !! sp_id params = Some l → objs w !! l = Some o →
  lists w !! obj_history o = Some h →
  upsert_task params w =
  (Ok l, set_lists (λ ls, <[obj_history o := h ++ [message params]]> ls) w).
Proof.
  intros Hk Ho Hh.
  unfold upsert_task, bind, tasks_get, read_obj, list_append, bind, read_list.
  rewrite Hk, Ho, Hh. reflexivity.
Qed.

Lemma upsert_task_evolves (w : World R) params :
  wf_world w →
  wf_world (snd (upsert_task params w)) ∧ evolves w (snd (upsert_task params w)).
Proof.
  intros Hwf. destruct (tasks w !! sp_id params) as [l|] eqn:Hk.
  - destruct (wf_stored_obj _ _ _ Hwf Hk) as (o & h & Ho & Hh).
    rewrite (upsert_task_existing _ _ _ _ _ Hk Ho Hh).
    eapply step_list_append; [done|done|exact Hh|done| |done].
    by exists (sp_id params), l, o.
  - rewrite (upsert_task_fresh _ _ Hk).
    eapply step_new_task; [exact Hk|done|done|done|done|done].
Qed.

Lemma on_get_task_missing (w : World R) request :
  tasks w !! qp_id (greq_params request) = None →
  on_get_task request w = (Raise (ValidationError "code: Field required"), w).
Proof.
  intros Hk. unfold on_get_task, bind, tasks_get. rewrite Hk. reflexivity.
Qed.

Lemma on_get_task_found (w : World R) request l o h :
  tasks w !! qp_id (greq_params request) = Some l → objs w !! l = Some o →
  lists w !! obj_history o = Some h →
  on_get_task request w =
  (Ok {| resp_id := greq_id request; resp_result := Some (length (objs w));
         resp_error := None |},
   match qp_historyLength (greq_params request) with
   | Some n =>
       set_objs (λ os, os ++ [{| obj_id := obj_id o; obj_status := obj_status o;
                                 obj_history := length (lists w) |}])
         (set_lists (λ ls, ls ++ [slice_from (- n) h]) w)
   | None => set_objs (λ os, os ++ [o]) w
   end).
Proof.
  intros Hk Ho Hh.
  unfold on_get_task, bind, tasks_get, read_obj, alloc_obj. rewrite Hk, Ho.
  destruct (qp_historyLength (greq_params request)) as [n|].
  - unfold bind, read_list, alloc_list, set_history, bind, read_obj. simpl.
    rewrite Hh. simpl. rewrite lookup_snoc_length. simpl.
    unfold set_objs, set_lists. simpl. by rewrite insert_snoc_length.
  - unfold set_history, bind, read_obj. simpl.
    rewrite lookup_snoc_length. simpl.
    unfold set_objs. simpl. rewrite insert_snoc_length. by destruct o.
Qed.

Lemma on_get_task_evolves (w : World R) request :
  wf_world w →
  wf_world (snd (on_get_task request w)) ∧ evolves w (snd (on_get_task request w)).
Proof.
  intros Hwf. destruct (tasks w !! qp_id (greq_params request)) as [l|] eqn:Hk.
  - destruct (wf_stored_obj _ _ _ Hwf Hk) as (o & h & Ho & Hh).
    rewrite (on_get_task_found _ _ _ _ _ Hk Ho Hh).
    destruct (qp_historyLength (greq_params request)) as [n|]; simpl.
    + eapply step_alloc; [done|done|done|done].
    + eapply (step_alloc _ _ _ []); [done|done| |done]. simpl. by rewrite app_nil_r.
  - rewrite (on_get_task_missing _ _ Hk). split; [done|apply evolves_refl].
Qed.

Lemma on_send_task_reply_no_parts (w : World R) request task :
  parts (message (sreq_params request)) = [] →
  on_send_task_reply request task w =
  (Raise (IndexError "list index out of range"), w).
Proof.
  intros Hp. unfold on_send_task_reply, bind, _get_user_query. by rewrite Hp.
Qed.

Lemma on_send_task_reply_raise (w : World R) request task p ps e ρ :
  parts (message (sreq_params request)) = p :: ps →
  invoke (text p) (session_id (sreq_params request)) (runner w) = (Raise e, ρ) →
  on_send_task_reply request task w = (Raise e, set_runner ρ w).
Proof.
  intros Hp Hi. unfold on_send_task_reply, bind, _get_user_query, external.
  rewrite Hp. simpl. by rewrite Hi.
Qed.

Lemma on_send_task_reply_ok (w : World R) request task p ps txt ρ o h :
  parts (message (sreq_params request)) = p :: ps →
  invoke (text p) (session_id (sreq_params request)) (runner w) = (Ok txt, ρ) →
  objs w !! task = Some o → lists w !! obj_history o = Some h →
  on_send_task_reply request task w =
  (Ok {| resp_id := IdStr (uuid (draws w)); resp_result := Some task;
         resp_error := None |},
   set_draws S
     (set_lists (λ ls, <[obj_history o :=
                          h ++ [{| role := agent; parts := [{| text := txt |}] |}]]> ls)
        (set_objs (λ os, <[task := {| obj_id := obj_id o;
                                      obj_status := {| state := "COMPLETED";
                                                       timestamp := clock (ticks w) |};
                                      obj_history := obj_history o |}]> os)
           (set_ticks S (set_runner ρ w))))).
Proof.
  intros Hp Hi Ho Hh.
  unfold on_send_task_reply, bind, _get_user_query, external.
  rewrite Hp. simpl. rewrite Hi. simpl.
  unfold set_status, bind, read_obj. simpl. rewrite Ho. simpl.
  rewrite list_lookup_insert_eq by by eapply lookup_lt_Some. simpl.
  unfold list_append, bind, read_list. simpl. rewrite Hh. reflexivity.
Qed.

Lemma on_send_task_reply_evolves (w : World R) request task :
  wf_world w → stored_obj w task →
  wf_world (snd (on_send_task_reply request task w)) ∧
  evolves w (snd (on_send_task_reply request task w)).
Proof.
  intros Hwf [k Hk].
  destruct (parts (message (sreq_params request))) as [|p ps] eqn:Hp.
  { rewrite on_send_task_reply_no_parts by done. split; [done|apply evolves_refl]. }
  destruct (invoke (text p) (session_id (sreq_params request)) (runner w))
    as [[txt|e] ρ] eqn:Hi.
  - destruct (wf_stored_obj _ _ _ Hwf Hk) as (o & h & Ho & Hh).
    rewrite (on_send_task_reply_ok _ _ _ _ _ _ _ _ _ Hp Hi Ho Hh). simpl.
    set (st := {| state := "COMPLETED"; timestamp := clock (ticks w) |}).
    set (o' := {| obj_id := obj_id o; obj_status := st; obj_history := obj_history o |}).
    set (w1 := set_objs (λ os, <[task := o']> os) (set_ticks S (set_runner ρ w))).
    destruct (step_set_status w w1 task o st) as [Hwf1 Hev1];
      [done|done|done|done|by exists k|done|].
    match goal with |- wf_world ?u ∧ _ => set (w2 := u) end.
    destruct (step_list_append w1 w2 (obj_history o) h
                [{| role := agent; parts := [{| text := txt |}] |}]) as [Hwf2 Hev2];
      [done|done|exact Hh|done| |done|].
    { exists k, task, o'. split; [exact Hk|]. split; [|reflexivity].
      apply list_lookup_insert_eq. by eapply lookup_lt_Some. }
    split; [done|]. by apply (evolves_trans w w1 w2).
  - rewrite (on_send_task_reply_raise _ _ _ _ _ _ _ Hp Hi). simpl.
    eapply (step_alloc _ _ [] []); [done| | |done]; simpl; by rewrite app_nil_r.
Qed.

Lemma upsert_task_result (w : World R) params :
  wf_world w →
  ∃ l, fst (upsert_task params w) = Ok l ∧
       tasks (snd (upsert_task params w)) !! sp_id params = Some l.
Proof.
  intros Hwf. destruct (tasks w !! sp_id params) as [l|] eqn:Hk.
  - destruct (wf_stored_obj _ _ _ Hwf Hk) as (o & h & Ho & Hh).
    rewrite (upsert_task_existing _ _ _ _ _ Hk Ho Hh). by exists l.
  - rewrite (upsert_task_fresh _ _ Hk). eexists. split; [done|].
    simpl. by rewrite lookup_insert_eq.
Qed.

Lemma on_send_task_evolves (w : World R) request :
  wf_world w →
  wf_world (snd (on_send_task request w)) ∧ evolves w (snd (on_send_task request w)).
Proof.
  intros Hwf. rewrite on_send_task_unfold. unfold bind.
  destruct (upsert_task_evolves w (sreq_params request) Hwf) as [Hwf1 Hev1].
  destruct (upsert_task_result w (sreq_params request) Hwf) as (l & Hl & Hst).
  destruct (upsert_task (sreq_params request) w) as [[l'|e] w1]; simpl in *; [|done].
  simplify_eq.
  destruct (on_send_task_reply_evolves w1 request l Hwf1) as [Hwf2 Hev2];
    [by eexists|].
  split; [done|]. by apply (evolves_trans w w1 _).
Qed.

Lemma run_op_evolves (w : World R) op :
  wf_world w → wf_world (run_op op w) ∧ evolves w (run_op op w).
Proof.
  intros Hwf. destruct op; simpl.
  - by apply upsert_task_evolves.
  - by apply on_send_task_evolves.
  - by apply on_get_task_evolves.
Qed.

Lemma run_ops_evolves (w : World R) ops :
  wf_world w → wf_world (run_ops ops w) ∧ evolves w (run_ops ops w).
Proof.
  revert w. induction ops as [|op ops IH]; intros w Hwf; simpl.
  - split; [done|apply evolves_refl].
  - destruct (run_op_evolves w op Hwf) as [Hwf1 Hev1].
    destruct (IH _ Hwf1) as [Hwf2 Hev2].
    split; [done|]. by apply (evolves_trans w (run_op op w) _).
Qed.

(** every world the operations reach from an empty table is well formed *)
Lemma reachable_wf_world (w : World R) ops :
  tasks w = ∅ → wf_world (run_ops ops w).
Proof. intros Ht. by apply run_ops_evolves, wf_world_empty. Qed.

(** what [evolves] means for a stored task and for a detached reference *)
Lemma evolves_stored (w w' : World R) k t :
  evolves w w' → stored w k = Some t →
  ∃ t', stored w' k = Some t' ∧ task_id t' = task_id t ∧
        history t `prefix_of` history t'.
Proof.
  intros Hev. unfold stored. destruct (tasks w !! k) as [l|] eqn:Hk; [|done].
  intros (o & h & Ho & Hh & ->)%view_Some.
  rewrite (ev_tasks _ _ Hev _ _ Hk).
  destruct (ev_objs _ _ Hev _ _ Ho) as (o' & Ho' & Hid & Hhl & _).
  destruct (ev_lists _ _ Hev _ _ Hh) as (h' & Hh' & Hp & _).
  eexists. split; [|split].
  - apply view_Some. exists o', h'. rewrite Hhl. eauto.
  - done.
  - done.
Qed.

Lemma evolves_detached (w w' : World R) l :
  wf_world w → evolves w w' → detached w l →
  detached w' l ∧ view w' l = view w l.
Proof.
  intros Hwf Hev ([t Ht] & Hno & Hnl).
  apply view_Some in Ht as Ht'. destruct Ht' as (o & h & Ho & Hh & ->).
  specialize (Hnl o Ho).
  destruct (ev_objs _ _ Hev _ _ Ho) as (o' & Ho' & _ & _ & Heq).
  rewrite (Heq Hno) in Ho'. clear Heq o'.
  destruct (ev_lists _ _ Hev _ _ Hh) as (h' & Hh' & _ & Heq).
  rewrite (Heq Hnl) in Hh'. clear Heq h'.
  assert (Hv : view w' l = view w l).
  { rewrite Ht. apply view_Some. eauto. }
  split; [|done]. split_and!.
  - rewrite Hv, Ht. by eexists.
  - eapply evolves_not_stored_obj; [done| |done]. by eapply lookup_lt_Some.
  - intros o2 Ho2. assert (o2 = o) as -> by congruence.
    eapply evolves_not_stored_list; [done|done| |done]. by eapply lookup_lt_Some.
Qed.

(** ** The wire shape *)

Lemma validate_dump_TextPart p : validate_TextPart (dump_TextPart p) = Ok p.
Proof. by destruct p. Qed.

Lemma validate_dump_parts ps :
  result_mapM validate_TextPart (map dump_TextPart ps) = Ok ps.
Proof.
  induction ps as [|p ps IH]; [done|].
  cbn [map result_mapM]. by rewrite validate_dump_TextPart, IH.
Qed.

Lemma validate_dump_Message m : validate_Message (dump_Message m) = Ok m.
Proof.
  destruct m as [r ps]. unfold validate_Message, dump_Message.
  cbn [field String.eqb Ascii.eqb Bool.eqb role parts].
  replace (validate_Role (Some (JStr (Role_value r)))) with (Ok r) by by destruct r.
  cbn [result_bind]. by rewrite validate_dump_parts.
Qed.

Lemma validate_dump_history h :
  result_mapM validate_Message (map dump_Message h) = Ok h.
Proof.
  induction h as [|m h IH]; [done|].
  cbn [map result_mapM]. by rewrite validate_dump_Message, IH.
Qed.


(** ** The task store *)

(** [upsert_task] against what the specification says of [upsert] *)
Lemma upsert_task_view (w : World R) (params : TaskSendParams) :
  wf_world w →
  ∃ l w', upsert_task params w = (Ok l, w') ∧
          tasks w' !! sp_id params = Some l ∧
          view w' l = Some (upsert_spec w params) ∧
          runner w' = runner w.
Proof.
  intros Hwf. unfold upsert_spec, stored.
  destruct (tasks w !! sp_id params) as [l|] eqn:Hk.
  - destruct (wf_stored_obj _ _ _ Hwf Hk) as (o & h & Ho & Hh).
    rewrite (upsert_task_existing _ _ _ _ _ Hk Ho Hh).
    eexists _, _. split; [done|]. split; [done|]. split; [|done].
    assert (view w l = Some {| task_id := obj_id o; status := obj_status o;
                               history := h |}) as ->.
    { apply view_Some. eauto. }
    apply view_Some. exists o, (h ++ [message params]).
    split_and!; [done| |done]. simpl.
    apply list_lookup_insert_eq. by eapply lookup_lt_Some.
  - rewrite (upsert_task_fresh _ _ Hk).
    eexists _, _. split; [done|]. simpl. split; [by rewrite lookup_insert_eq|].
    split; [|done].
    apply view_Some. eexists _, _. simpl.
    split_and!; [apply lookup_snoc_length|apply lookup_snoc_length|done].
Qed.

(** C5: [upsert_task] always returns; under an id that has no task it
    stores a task with status [submitted] whose history is the message
    alone, under an id that has one it appends the message to that task's
    history and leaves its status as it is; the reference it returns is
    the stored task after the change. *)
Theorem upsert_task_spec (w : World R) (params : TaskSendParams) :
  wf_world w →
  ∃ l w', upsert_task params w = (Ok l, w') ∧
          stored w' (sp_id params) = view w' l ∧
          view w' l = Some
            match stored w (sp_id params) with
            | None =>
                {| task_id := sp_id params;
                   status := {| state := "submitted"; timestamp := clock (ticks w) |};
                   history := [message params] |}
            | Some t =>
                {| task_id := task_id t; status := status t;
                   history := history t ++ [message params] |}
            end.
Proof.
  intros Hwf.
  destruct (upsert_task_view w params Hwf) as (l & w' & Hrun & Hk & Hv & _).
  exists l, w'. split; [done|]. split.
  - unfold stored. by rewrite Hk.
  - rewrite Hv. reflexivity.
Qed.

(** C6, on the code: for an id that has no task, [on_get_task] does not
    return a response.  The error it passes to [GetTaskResponse] is the
    dict [{"message": "Task not found"}], which has no [code], so the
    constructor raises a validation error; the world is left as it was. *)
Theorem on_get_task_unknown_id_raises (w : World R) (request : GetTaskRequest) :
  tasks w !! qp_id (greq_params request) = None →
  on_get_task request w = (Raise (ValidationError "code: Field required"), w) ∧
  validate_JSONRPCError (JObj [("message", JStr "Task not found")])
    = Raise (ValidationError "code: Field required").
Proof.
  intros Hk. split; [|reflexivity].
  unfold on_get_task, bind, tasks_get. rewrite Hk.
  unfold lift. reflexivity.
Qed.

(** ** History projection on read *)

Lemma slice_from_last {A} (n : Z) (h : list A) :
  slice_from (- n) h =
  if n =? 0 then h
  else if 0 <? n then drop (length h - Z.to_nat n) h
  else drop (Z.to_nat (- n)) h.
Proof.
  unfold slice_from.
  destruct (Z.eqb_spec n 0) as [->|Hn].
  { simpl. by rewrite Z.min_l by lia. }
  destruct (Z.ltb_spec 0 n) as [Hpos|Hneg].
  - replace (- n <? 0) with true by (symmetry; apply Z.ltb_lt; lia).
    f_equal. lia.
  - replace (- n <? 0) with false by (symmetry; apply Z.ltb_ge; lia).
    destruct (decide (- n ≤ Z.of_nat (length h))) as [Hle|Hgt].
    + f_equal. lia.
    + rewrite !drop_ge by lia. done.
Qed.

(** what a read hands out, with the slice as the code writes it *)
Lemma on_get_task_view (w : World R) (request : GetTaskRequest) (t : Task) :
  wf_world w →
  stored w (qp_id (greq_params request)) = Some t →
  ∃ resp w' l,
    on_get_task request w = (Ok resp, w') ∧
    resp_result resp = Some l ∧ resp_error resp = None ∧
    view w' l = Some
      {| task_id := task_id t; status := status t;
         history :=
           match qp_historyLength (greq_params request) with
           | None => history t
           | Some n => slice_from (- n) (history t)
           end |}.
Proof.
  intros Hwf. unfold stored.
  destruct (tasks w !! qp_id (greq_params request)) as [l|] eqn:Hk; [|done].
  intros (o & h & Ho & Hh & ->)%view_Some.
  rewrite (on_get_task_found _ _ _ _ _ Hk Ho Hh).
  eexists _, _, _. split; [done|]. split; [done|]. split; [done|].
  cbn [task_id status history].
  destruct (qp_historyLength (greq_params request)) as [n|].
  - apply view_Some. eexists _, _. simpl.
    split_and!; [apply lookup_snoc_length|apply lookup_snoc_length|done].
  - apply view_Some. exists o, h. simpl.
    split_and!; [apply lookup_snoc_length|done|done].
Qed.

(** C4, on the code: what a read of an existing task returns as history.
    Without [historyLength] it is the full history, and for a positive
    [historyLength] it is the last that many messages (all of them when
    there are fewer); but for [historyLength = 0] the slice [history[-0:]]
    is the full history, not the empty one, and for a negative
    [historyLength] it is the history without its first messages. *)
Theorem on_get_task_history (w : World R) (request : GetTaskRequest) (t : Task) :
  wf_world w →
  stored w (qp_id (greq_params request)) = Some t →
  ∃ resp w' l,
    on_get_task request w = (Ok resp, w') ∧
    resp_result resp = Some l ∧ resp_error resp = None ∧
    view w' l = Some
      {| task_id := task_id t; status := status t;
         history :=
           match qp_historyLength (greq_params request) with
           | None => history t
           | Some n =>
               if n =? 0 then history t
               else if 0 <? n then
                 drop (length (history t) - Z.to_nat n) (history t)
               else drop (Z.to_nat (- n)) (history t)
           end |}.
Proof.
  intros Hwf Hs.
  destruct (on_get_task_view w request t Hwf Hs) as (resp & w' & l & Hrun & Hl & He & Hv).
  exists resp, w', l. split_and!; [done..|].
  rewrite Hv. destruct (qp_historyLength (greq_params request)) as [n|]; [|done].
  by rewrite slice_from_last.
Qed.

(** ** Histories only grow *)

Lemma on_get_task_stored (w : World R) request k t :
  wf_world w → stored w k = Some t →
  stored (snd (on_get_task request w)) k = Some t.
Proof.
  intros Hwf Hs.
  destruct (tasks w !! qp_id (greq_params request)) as [l|] eqn:Hk.
  - destruct (wf_stored_obj _ _ _ Hwf Hk) as (o & h & Ho & Hh).
    rewrite (on_get_task_found _ _ _ _ _ Hk Ho Hh).
    revert Hs. unfold stored.
    destruct (qp_historyLength (greq_params request)); simpl;
      (destruct (tasks w !! k) as [l'|]; [|done]);
      intros (o' & h' & Ho' & Hh' & ->)%view_Some;
      apply view_Some; exists o', h'; simpl;
      (split_and!; [by apply lookup_app_l_Some| |done]);
      [by apply lookup_app_l_Some|done].
  - by rewrite (on_get_task_missing _ _ Hk).
Qed.

Lemma prefix_same_or_longer {A} (h h' : list A) :
  h `prefix_of` h' → h' = h ∨ (length h < length h')%nat.
Proof.
  intros [[|x k] ->].
  - left. by rewrite app_nil_r.
  - right. rewrite length_app. simpl. lia.
Qed.

(** C8: none of the operations of the layer shrinks a stored history.
    After [upsert_task], after [on_send_task] (which appends the query
    and then the reply, and may stop after the first) and after
    [on_get_task], a task that was stored is still stored, and its old
    history is a prefix of its new one, which is therefore the same or
    strictly longer; the last-N projection of [on_get_task] leaves the
    stored task exactly as it was. *)
Theorem history_never_shrinks (w : World R) (op : Op) (k : string) (t : Task) :
  wf_world w → stored w k = Some t →
  ∃ t', stored (run_op op w) k = Some t' ∧
        history t `prefix_of` history t' ∧
        (history t' = history t ∨ (length (history t) < length (history t'))%nat) ∧
        (∀ request, op = OpGet request → t' = t).
Proof.
  intros Hwf Hs.
  destruct (run_op_evolves w op Hwf) as [_ Hev].
  destruct (evolves_stored _ _ _ _ Hev Hs) as (t' & Hs' & _ & Hp).
  exists t'. split_and!; [done|done|by apply prefix_same_or_longer|].
  intros request ->. simpl in Hs'.
  rewrite (on_get_task_stored w request k t Hwf Hs) in Hs'. congruence.
Qed.

(** X2, retention: whatever sequence of calls follows, a stored task is never
    deleted; it keeps its id, and its history at any later time extends
    its history now. *)
Theorem task_never_deleted (w : World R) (ops : list Op) (k : string) (t : Task) :
  wf_world w → stored w k = Some t →
  ∃ t', stored (run_ops ops w) k = Some t' ∧ task_id t' = task_id t ∧
        history t `prefix_of` history t'.
Proof.
  intros Hwf Hs. destruct (run_ops_evolves w ops Hwf) as [_ Hev].
  by apply (evolves_stored w).
Qed.

(** X1, reading twice: with no send in between, a second [tasks/get] with the
    same [historyLength] hands out a task equal to the first, and the
    first still reads the same. *)
Theorem read_twice_same (w : World R) (request : GetTaskRequest) (t : Task) :
  wf_world w →
  stored w (qp_id (greq_params request)) = Some t →
  ∃ resp1 w1 l1 resp2 w2 l2,
    on_get_task request w = (Ok resp1, w1) ∧ resp_result resp1 = Some l1 ∧
    on_get_task request w1 = (Ok resp2, w2) ∧ resp_result resp2 = Some l2 ∧
    is_Some (view w1 l1) ∧ view w2 l2 = view w1 l1.
Proof.
  intros Hwf Hs.
  destruct (on_get_task_view w request t Hwf Hs)
    as (resp1 & w1 & l1 & Hrun1 & Hl1 & _ & Hv1).
  pose proof (on_get_task_evolves w request Hwf) as [Hwf1 _].
  pose proof (on_get_task_stored w request _ t Hwf Hs) as Hs1.
  rewrite Hrun1 in Hwf1, Hs1. simpl in Hwf1, Hs1.
  destruct (on_get_task_view w1 request t Hwf1 Hs1)
    as (resp2 & w2 & l2 & Hrun2 & Hl2 & _ & Hv2).
  exists resp1, w1, l1, resp2, w2, l2.
  split_and!; [done..|by rewrite Hv1|by rewrite Hv1, Hv2].
Qed.

(** ** What a handed-out reference shows later *)

Lemma on_get_task_trimmed_detached (w : World R) request n resp w' l :
  wf_world w → qp_historyLength (greq_params request) = Some n →
  on_get_task request w = (Ok resp, w') → resp_result resp = Some l →
  wf_world w' ∧ detached w' l.
Proof.
  intros Hwf Hn Hrun Hl.
  pose proof (on_get_task_evolves w request Hwf) as [Hwf' Hev].
  destruct (tasks w !! qp_id (greq_params request)) as [sl|] eqn:Hk.
  2:{ rewrite (on_get_task_missing _ _ Hk) in Hrun. done. }
  destruct (wf_stored_obj _ _ _ Hwf Hk) as (o & h & Ho & Hh).
  rewrite (on_get_task_found _ _ _ _ _ Hk Ho Hh) in Hrun, Hwf', Hev.
  rewrite Hn in Hrun, Hwf', Hev. simpl in Hwf', Hev.
  injection Hrun as <- <-. simpl in Hl. injection Hl as <-.
  split; [done|].
  set (c := {| obj_id := obj_id o; obj_status := obj_status o;
               obj_history := length (lists w) |}).
  assert (Hc : objs (set_objs (λ os, os ++ [c])
                 (set_lists (λ ls, ls ++ [slice_from (- n) h]) w))
               !! length (objs w) = Some c) by apply lookup_snoc_length.
  split_and!.
  - eexists. apply view_Some. exists c, (slice_from (- n) h).
    split_and!; [done|apply lookup_snoc_length|done].
  - intros [k Hst]. simpl in Hst.
    destruct (wf_stored_obj _ _ _ Hwf Hst) as (? & ? & Hlt%lookup_lt_Some & _). lia.
  - intros o2 Ho2. assert (o2 = c) as -> by congruence. simpl.
    intros (k & sl2 & o3 & Hst & Ho3 & Hh3). simpl in Hst.
    destruct (wf_stored_obj _ _ _ Hwf Hst) as (o4 & ? & Ho4 & Hlt%lookup_lt_Some).
    assert (o3 = o4) as ->.
    { simpl in Ho3. rewrite lookup_app_l in Ho3 by by eapply lookup_lt_Some.
      congruence. }
    lia.
Qed.

(** C9, as the code has it: a read with an explicit [historyLength] hands
    out a detached copy, a new [Task] object with a new history list,
    which no later [upsert_task], [on_send_task] or [on_get_task] alters.
    A read without [historyLength] hands out a new [Task] object that
    shares the history list of the stored task, and [on_send_task] and
    [upsert_task] hand out the stored [Task] object itself. *)
Theorem handed_out_references (w : World R) :
  wf_world w →
  (∀ request n resp w' l ops,
     qp_historyLength (greq_params request) = Some n →
     on_get_task request w = (Ok resp, w') → resp_result resp = Some l →
     is_Some (view w' l) ∧ view (run_ops ops w') l = view w' l) ∧
  (∀ request resp w' l,
     qp_historyLength (greq_params request) = None →
     on_get_task request w = (Ok resp, w') → resp_result resp = Some l →
     ¬ stored_obj w' l ∧
     ∃ o sl so, objs w' !! l = Some o ∧
                tasks w' !! qp_id (greq_params request) = Some sl ∧
                objs w' !! sl = Some so ∧ obj_history o = obj_history so) ∧
  (∀ request resp w' l,
     on_send_task request w = (Ok resp, w') → resp_result resp = Some l →
     tasks w' !! sp_id (sreq_params request) = Some l) ∧
  (∀ params l w',
     upsert_task params w = (Ok l, w') → tasks w' !! sp_id params = Some l).
Proof.
  intros Hwf. split_and!; [| | |
    intros params l w' Hrun;
    destruct (upsert_task_view w params Hwf) as (l' & w1 & Hup & Hk & _);
    congruence].
  - intros request n resp w' l ops Hn Hrun Hl.
    destruct (on_get_task_trimmed_detached _ _ _ _ _ _ Hwf Hn Hrun Hl) as [Hwf' Hd].
    split; [apply Hd|].
    destruct (run_ops_evolves w' ops Hwf') as [_ Hev].
    by destruct (evolves_detached _ _ _ Hwf' Hev Hd).
  - intros request resp w' l Hn Hrun Hl.
    destruct (tasks w !! qp_id (greq_params request)) as [sl|] eqn:Hk.
    2:{ rewrite (on_get_task_missing _ _ Hk) in Hrun. done. }
    destruct (wf_stored_obj _ _ _ Hwf Hk) as (o & h & Ho & Hh).
    rewrite (on_get_task_found _ _ _ _ _ Hk Ho Hh), Hn in Hrun.
    injection Hrun as <- <-. simpl in Hl. injection Hl as <-. split.
    + intros [k Hst]. simpl in Hst.
      destruct (wf_stored_obj _ _ _ Hwf Hst) as (? & ? & Hlt%lookup_lt_Some & _). lia.
    + exists o, sl, o. simpl.
      split_and!; [apply lookup_snoc_length|done|by apply lookup_app_l_Some|done].
  - intros request resp w' l Hrun Hl.
    rewrite on_send_task_unfold in Hrun. unfold bind in Hrun.
    destruct (upsert_task_view w (sreq_params request) Hwf)
      as (sl & w1 & Hup & Hk & Hv & _).
    rewrite Hup in Hrun.
    apply view_Some in Hv as (o & h & Ho & Hh & _).
    destruct (parts (message (sreq_params request))) as [|p ps] eqn:Hp.
    { by rewrite on_send_task_reply_no_parts in Hrun. }
    destruct (invoke (text p) (session_id (sreq_params request)) (runner w1))
      as [[txt|e] ρ] eqn:Hi.
    + rewrite (on_send_task_reply_ok _ _ _ _ _ _ _ _ _ Hp Hi Ho Hh) in Hrun.
      injection Hrun as <- <-. simpl in Hl. injection Hl as <-. exact Hk.
    + by rewrite (on_send_task_reply_raise _ _ _ _ _ _ _ Hp Hi) in Hrun.
Qed.

(** ** Sending a task *)

Lemma on_send_task_ok (w w1 : World R) request l p ps txt ρ o h :
  upsert_task (sreq_params request) w = (Ok l, w1) →
  parts (message (sreq_params request)) = p :: ps →
  invoke (text p) (session_id (sreq_params request)) (runner w1) = (Ok txt, ρ) →
  objs w1 !! l = Some o → lists w1 !! obj_history o = Some h →
  ∃ resp w', on_send_task request w = (Ok resp, w') ∧
             resp_result resp = Some l ∧ resp_error resp = None ∧
             tasks w' = tasks w1 ∧
             view w' l = Some
               {| task_id := obj_id o;
                  status := {| state := "COMPLETED"; timestamp := clock (ticks w1) |};
                  history := h ++ [{| role := agent; parts := [{| text := txt |}] |}] |}.
Proof.
  intros Hup Hp Hi Ho Hh.
  rewrite on_send_task_unfold. unfold bind. rewrite Hup.
  rewrite (on_send_task_reply_ok _ _ _ _ _ _ _ _ _ Hp Hi Ho Hh).
  eexists _, _. split; [done|]. split_and!; [done..|].
  apply view_Some.
  exists {| obj_id := obj_id o;
            obj_status := {| state := "COMPLETED"; timestamp := clock (ticks w1) |};
            obj_history := obj_history o |},
         (h ++ [{| role := agent; parts := [{| text := txt |}] |}]).
  simpl. split; [|split; [|done]].
  - apply list_lookup_insert_eq. by eapply lookup_lt_Some.
  - apply list_lookup_insert_eq. by eapply lookup_lt_Some.
Qed.

(** [invoke] answers with its fallback text when the run gives no event,
    or a last event without content or without parts. *)
Lemma invoke_fallback query sid (ρ0 ρ1 ρ2 ρ3 : R) (session : bool) events :
  get_session sid ρ0 = (Ok session, ρ1) →
  (if session then ρ2 = ρ1 else create_session sid ρ1 = (Ok tt, ρ2)) →
  runner_run sid query ρ2 = (Ok events, ρ3) →
  last_parts events = None →
  invoke query sid ρ0 = (Ok "No response from agent", ρ3).
Proof.
  intros Hg Hc Hr Hl. unfold invoke, bind. rewrite Hg.
  destruct session.
  - subst ρ2. unfold ret. rewrite Hr, Hl. done.
  - rewrite Hc, Hr, Hl. done.
Qed.

(** C7, as the code has it: when [invoke] raises, [on_send_task] raises
    the same exception (no [ResolutionError] exists) and the store holds
    the task as [upsert_task] left it, the incoming message recorded and
    the status untouched; when [invoke] returns a text, which for a run
    without usable events is its fallback text, [on_send_task] does not
    fail: it finishes the send as for any other reply text, returning
    the stored task with that text appended as the agent's reply and
    with a new status, stamped when the reply is recorded. *)
Theorem on_send_task_resolve_outcome (w : World R) (request : SendTaskRequest)
    (p : Part) (ps : list Part) (r : result string) (ρ : R) :
  wf_world w →
  parts (message (sreq_params request)) = p :: ps →
  invoke (text p) (session_id (sreq_params request)) (runner w) = (r, ρ) →
  let params := sreq_params request in
  match r with
  | Raise e =>
      ∃ w', on_send_task request w = (Raise e, w') ∧
            stored w' (sp_id params) = Some (upsert_spec w params)
  | Ok txt =>
      (∃ resp w' l t,
         on_send_task request w = (Ok resp, w') ∧
         resp_result resp = Some l ∧ resp_error resp = None ∧
         view w' l = Some t ∧
         stored w' (sp_id params) = Some t ∧
         task_id t = task_id (upsert_spec w params) ∧
         history t = history (upsert_spec w params)
                     ++ [{| role := agent; parts := [{| text := txt |}] |}] ∧
         timestamp (status t) = clock (ticks (snd (upsert_task params w)))) ∧
      (∀ session ρ1 ρ2 events,
         get_session (session_id params) (runner w) = (Ok session, ρ1) →
         (if session then ρ2 = ρ1
          else create_session (session_id params) ρ1 = (Ok tt, ρ2)) →
         runner_run (session_id params) (text p) ρ2 = (Ok events, ρ) →
         last_parts events = None →
         txt = "No response from agent")
  end.
Proof.
  intros Hwf Hp Hi params. subst params.
  destruct (upsert_task_view w (sreq_params request) Hwf)
    as (l & w1 & Hup & Hk & Hv & Hr).
  rewrite <- Hr in Hi.
  destruct r as [txt|e].
  - split.
    + apply view_Some in Hv as Hv'. destruct Hv' as (o & h & Ho & Hh & Hspec).
      destruct (on_send_task_ok _ _ _ _ _ _ _ _ _ _ Hup Hp Hi Ho Hh)
        as (resp & w' & Hrun & Hl & He & Ht & Hv').
      eexists resp, w', l, _. split_and!; [done|done|done|exact Hv'| | | |].
      * unfold stored. by rewrite Ht, Hk.
      * simpl. by rewrite Hspec.
      * simpl. by rewrite Hspec.
      * simpl. by rewrite Hup.
    + intros session ρ1 ρ2 events Hg Hc Hrn Hl. rewrite Hr in Hi.
      rewrite (invoke_fallback _ _ _ _ _ _ _ _ Hg Hc Hrn Hl) in Hi. congruence.
  - exists (set_runner ρ w1). split.
    + rewrite on_send_task_unfold. unfold bind. rewrite Hup.
      by rewrite (on_send_task_reply_raise _ _ _ _ _ _ _ Hp Hi).
    + unfold stored. simpl. by rewrite Hk.
Qed.

(** C2, on the code: a [tasks/send] with a new id whose resolver call
    returns the text [txt] yields a task whose history is the query and
    then the reply, and whose state is the string ["COMPLETED"], which is
    not the value ["completed"] of [TaskState.COMPLETED]. *)
Theorem on_send_task_fresh_state (w : World R) (request : SendTaskRequest)
    (p : Part) (ps : list Part) (txt : string) (ρ : R) :
  tasks w !! sp_id (sreq_params request) = None →
  parts (message (sreq_params request)) = p :: ps →
  invoke (text p) (session_id (sreq_params request)) (runner w) = (Ok txt, ρ) →
  ∃ resp w' l,
    on_send_task request w = (Ok resp, w') ∧ resp_result resp = Some l ∧
    view w' l = Some
      {| task_id := sp_id (sreq_params request);
         status := {| state := "COMPLETED"; timestamp := clock (S (ticks w)) |};
         history := [message (sreq_params request);
                     {| role := agent; parts := [{| text := txt |}] |}] |} ∧
    "COMPLETED" ≠ TaskState_value COMPLETED.
Proof.
  intros Hk Hp Hi.
  pose proof (upsert_task_fresh _ _ Hk) as Hup.
  match type of Hup with _ = (_, ?u) => set (w1 := u) in * end.
  destruct (on_send_task_ok w w1 request (length (objs w)) p ps txt ρ
              {| obj_id := sp_id (sreq_params request);
                 obj_status := {| state := "submitted"; timestamp := clock (ticks w) |};
                 obj_history := length (lists w) |}
              [message (sreq_params request)] Hup Hp Hi)
    as (resp & w' & Hrun & Hl & _ & _ & Hv).
  { apply lookup_snoc_length. }
  { apply lookup_snoc_length. }
  exists resp, w', (length (objs w)). split_and!; [done|done|exact Hv|done].
Qed.

(** ** The HTTP handler *)

(** C3, on the code: whenever the [try] block of [handle_request] raises,
    the [except] clause raises in turn, because [logger.errorr] is not a
    method of the logger; the handler ends with that [AttributeError] and
    builds no response, so no status 400 and no error body are sent. *)
Theorem handle_request_failure_escapes (w w1 : World R) (request_json : result json)
    (e : exn) :
  handle_request_try request_json w = (Raise e, w1) →
  handle_request request_json w = (Raise (AttributeError "errorr"), w1) ∧
  ∀ response w2, handle_request request_json w ≠ (Ok response, w2).
Proof.
  intros Htry. unfold handle_request, try_except. rewrite Htry.
  unfold handle_request_except, bind. rewrite logger_call_errorr.
  unfold raise. split; [done|]. intros response w2. discriminate.
Qed.

(** Validation reads the body and draws tokens, nothing else. *)

Lemma keeps_store_ret {A} (a : A) : keeps_store (ret a).
Proof. by intros w. Qed.

Lemma keeps_store_raise {A} e : keeps_store (@raise (World R) A e).
Proof. by intros w. Qed.

Lemma keeps_store_lift {A} (r : result A) : keeps_store (lift r).
Proof. by intros w. Qed.

Lemma keeps_store_uuid4_hex : keeps_store uuid4_hex.
Proof. by intros w. Qed.

Lemma keeps_store_bind {A B} (m : M (World R) A) (k : A → M (World R) B) :
  keeps_store m → (∀ a, keeps_store (k a)) → keeps_store (bind m k).
Proof.
  intros Hm Hk w. unfold bind. specialize (Hm w).
  destruct (m w) as [[a|e] w1]; simpl in *; [|done].
  destruct (Hk a w1) as (-> & -> & ->). done.
Qed.

Ltac keeps_store :=
  repeat first
    [ apply keeps_store_ret | apply keeps_store_raise | apply keeps_store_lift
    | apply keeps_store_uuid4_hex
    | apply keeps_store_bind; [|intros ?]
    | match goal with
      | |- keeps_store (match ?x with _ => _ end) => destruct x
      end ].

Lemma keeps_store_validate_python body : keeps_store (A2ARequest_validate_python body).
Proof.
  unfold A2ARequest_validate_python, validate_TaskSendParams, validate_message_id.
  keeps_store.
Qed.

Lemma validate_dump_GetTaskRequest (w : World R) (r : GetTaskRequest) :
  A2ARequest_validate_python (dump_GetTaskRequest r) w = (Ok (IsGetTaskRequest r), w).
Proof.
  destruct r as [i [k md hl]].
  unfold A2ARequest_validate_python, dump_GetTaskRequest, dump_TaskQueryParams.
  cbn [field String.eqb Ascii.eqb Bool.eqb greq_id greq_params qp_id qp_metadata
       qp_historyLength].
  unfold bind, lift, validate_message_id; simpl.
  destruct i, md, hl; reflexivity.
Qed.

(** C1, as the code has it: a well-formed request whose method is
    ["tasks/get"] is resolved to the [GetTaskRequest] shape, but the
    handler delegates only a [SendTaskRequest] to the task manager; for
    every body resolved to a [GetTaskRequest] its [try] block raises
    [ValueError] ("Unsupported A2A method"), [on_get_task] is not called
    and the table and the heap are left as they were. *)
Theorem handle_request_rejects_get :
  (∀ (w : World R) (r : GetTaskRequest),
     A2ARequest_validate_python (dump_GetTaskRequest r) w
     = (Ok (IsGetTaskRequest r), w)) ∧
  (∀ (w w1 : World R) (body : json) (r : GetTaskRequest),
     A2ARequest_validate_python body w = (Ok (IsGetTaskRequest r), w1) →
     handle_request_try (Ok body) w =
       (Raise (ValueError
          "Unsupported A2A method: <class 'models.request.GetTaskRequest'>"), w1) ∧
     tasks w1 = tasks w ∧ objs w1 = objs w ∧ lists w1 = lists w).
Proof.
  split; [apply validate_dump_GetTaskRequest|].
  intros w w1 body r Hv. split.
  - unfold handle_request_try, bind, lift. rewrite logger_call_info. unfold ret.
    rewrite Hv. reflexivity.
  - pose proof (keeps_store_validate_python body w) as H. by rewrite Hv in H.
Qed.

(** ** More on dispatch and on the HTTP handler *)

Lemma validate_dump_TaskSendParams (w : World R) (params : TaskSendParams) :
  validate_TaskSendParams (dump_TaskSendParams params) w = (Ok params, w).
Proof.
  destruct params as [k sid m hl md].
  unfold validate_TaskSendParams, dump_TaskSendParams.
  cbn [field String.eqb Ascii.eqb Bool.eqb sp_id session_id message
       sp_historyLength sp_metadata].
  unfold bind, lift. cbn [validate_str].
  rewrite validate_dump_Message.
  destruct hl, md; reflexivity.
Qed.

(** the envelope of a dumped [SendTaskRequest], down to its params *)
Lemma validate_python_send_envelope (w : World R) (r : SendTaskRequest) :
  A2ARequest_validate_python (dump_SendTaskRequest r) w =
  bind (validate_TaskSendParams (dump_TaskSendParams (sreq_params r)))
       (λ p, ret (IsSendTaskRequest {| sreq_id := sreq_id r; sreq_params := p |})) w.
Proof.
  destruct r as [i params].
  unfold A2ARequest_validate_python, dump_SendTaskRequest.
  cbn [field String.eqb Ascii.eqb Bool.eqb sreq_id sreq_params].
  destruct i; reflexivity.
Qed.

(** X3, the request round trip: the body a client posts for a
    [SendTaskRequest], its [model_dump()], is resolved by dispatch to
    that same request; nothing is defaulted and no token is drawn. *)
Theorem send_request_roundtrip (w : World R) (r : SendTaskRequest) :
  A2ARequest_validate_python (dump_SendTaskRequest r) w = (Ok (IsSendTaskRequest r), w).
Proof.
  rewrite validate_python_send_envelope. unfold bind.
  rewrite validate_dump_TaskSendParams. by destruct r.
Qed.

(** X4: only a request that dispatch resolves to a [SendTaskRequest] can
    write to the store.  For every other request (a body that is not
    JSON, a body that fails validation, a [tasks/get]) the handler, its
    [except] clause included, leaves the table and the heap as they
    were. *)
Theorem handle_request_only_send_writes (w : World R) (request_json : result json) :
  dispatches_send request_json w = false →
  tasks (snd (handle_request request_json w)) = tasks w ∧
  objs (snd (handle_request request_json w)) = objs w ∧
  lists (snd (handle_request request_json w)) = lists w.
Proof.
  intros Hd. unfold handle_request, try_except, handle_request_try, bind, lift.
  destruct request_json as [body|e]; [|done].
  rewrite logger_call_info. unfold ret.
  pose proof (keeps_store_validate_python body w) as Hk.
  unfold dispatches_send in Hd.
  destruct (A2ARequest_validate_python body w) as [[[r|r]|e] w1]; simpl in *; done.
Qed.

(** a [tasks/send] that is handled to the end: the response, and the
    task it shows *)
Lemma handle_request_send_view (w : World R) (r : SendTaskRequest)
    (p : Part) (ps : list Part) (txt : string) (ρ : R) :
  wf_world w →
  parts (message (sreq_params r)) = p :: ps →
  invoke (text p) (session_id (sreq_params r)) (runner w) = (Ok txt, ρ) →
  ∃ w' t,
    handle_request (Ok (dump_SendTaskRequest r)) w =
      (Ok {| status_code := 200;
             body := JObj [("jsonrpc", JStr "2.0");
                           ("id", JStr (uuid (draws w)));
                           ("result", dump_Task t)] |}, w') ∧
    stored w' (sp_id (sreq_params r)) = Some t ∧
    history t = history (upsert_spec w (sreq_params r))
                ++ [{| role := agent; parts := [{| text := txt |}] |}] ∧
    state (status t) = "COMPLETED" ∧
    ∃ n, timestamp (status t) = clock n.
Proof.
  intros Hwf Hp Hi.
  destruct (upsert_task_view w (sreq_params r) Hwf) as (l & w1 & Hup & Hk & Hv & Hr).
  rewrite <- Hr in Hi.
  apply view_Some in Hv as Hv'. destruct Hv' as (o & h & Ho & Hh & Hspec).
  destruct (on_send_task_ok _ _ _ _ _ _ _ _ _ _ Hup Hp Hi Ho Hh)
    as (resp & w' & Hrun & Hl & He & Ht & Hv').
  assert (Hid : resp_id resp = IdStr (uuid (draws w))).
  { rewrite on_send_task_unfold in Hrun. unfold bind in Hrun. rewrite Hup in Hrun.
    rewrite (on_send_task_reply_ok _ _ _ _ _ _ _ _ _ Hp Hi Ho Hh) in Hrun.
    injection Hrun as <- _. simpl. do 2 f_equal.
    destruct (tasks w !! sp_id (sreq_params r)) as [l0|] eqn:Hk0.
    - destruct (wf_stored_obj _ _ _ Hwf Hk0) as (o0 & h0 & Ho0 & Hh0).
      rewrite (upsert_task_existing _ _ _ _ _ Hk0 Ho0 Hh0) in Hup.
      by injection Hup as _ <-.
    - rewrite (upsert_task_fresh _ _ Hk0) in Hup. by injection Hup as _ <-. }
  eexists w', _. split_and!.
  - unfold handle_request, try_except, handle_request_try, bind, lift.
    rewrite logger_call_info. unfold ret.
    rewrite validate_python_send_envelope. unfold bind at 1.
    rewrite validate_dump_TaskSendParams. unfold ret.
    replace {| sreq_id := sreq_id r; sreq_params := sreq_params r |} with r
      by by destruct r.
    rewrite Hrun. unfold create_response, dump_response_exclude_none, bind, deref.
    rewrite Hl, Hv', He, Hid. reflexivity.
  - unfold stored. by rewrite Ht, Hk.
  - simpl. by rewrite Hspec.
  - reflexivity.
  - by eexists.
Qed.

(** X9: a well-formed [tasks/send] whose resolver call returns a text is
    answered with status 200 and the body [{jsonrpc, id, result}], where
    [result] is the wire shape of the task now stored: the task as
    [upsert_task] left it with the reply appended.  The body has no
    [error] key, and its [id] is a newly drawn token, not the [id] of the
    request. *)
Theorem handle_request_send_ok (w : World R) (r : SendTaskRequest)
    (p : Part) (ps : list Part) (txt : string) (ρ : R) :
  wf_world w →
  parts (message (sreq_params r)) = p :: ps →
  invoke (text p) (session_id (sreq_params r)) (runner w) = (Ok txt, ρ) →
  ∃ w' t,
    handle_request (Ok (dump_SendTaskRequest r)) w =
      (Ok {| status_code := 200;
             body := JObj [("jsonrpc", JStr "2.0");
                           ("id", JStr (uuid (draws w)));
                           ("result", dump_Task t)] |}, w') ∧
    stored w' (sp_id (sreq_params r)) = Some t ∧
    history t = history (upsert_spec w (sreq_params r))
                ++ [{| role := agent; parts := [{| text := txt |}] |}].
Proof.
  intros Hwf Hp Hi.
  destruct (handle_request_send_view w r p ps txt ρ Hwf Hp Hi)
    as (w' & t & Hrun & Hst & Hh & _).
  by exists w', t.
Qed.

(** ** More on the task manager *)

(** X5: a [tasks/send] whose message has no parts fails with [IndexError]
    at [parts[0]], after [upsert_task] has run: the message is already
    recorded in the stored history, the status is as [upsert_task] left
    it, and the agent has not been called. *)
Theorem on_send_task_no_parts (w : World R) (request : SendTaskRequest) :
  wf_world w →
  parts (message (sreq_params request)) = [] →
  ∃ w', on_send_task request w = (Raise (IndexError "list index out of range"), w') ∧
        stored w' (sp_id (sreq_params request)) = Some (upsert_spec w (sreq_params request)) ∧
        runner w' = runner w.
Proof.
  intros Hwf Hp.
  destruct (upsert_task_view w (sreq_params request) Hwf) as (l & w1 & Hup & Hk & Hv & Hr).
  exists w1. split_and!; [|by unfold stored; rewrite Hk|done].
  rewrite on_send_task_unfold. unfold bind. rewrite Hup.
  by apply on_send_task_reply_no_parts.
Qed.

(** what a change of the world must keep for a stored task to read the same *)
Lemma stored_frame (w w' : World R) k :
  wf_world w →
  tasks w' !! k = tasks w !! k →
  (∀ l o h, tasks w !! k = Some l → objs w !! l = Some o →
            lists w !! obj_history o = Some h →
            objs w' !! l = Some o ∧ lists w' !! obj_history o = Some h) →
  stored w' k = stored w k.
Proof.
  intros Hwf Ht Hframe. unfold stored. rewrite Ht.
  destruct (tasks w !! k) as [l|] eqn:Hk; [|done].
  destruct (wf_stored_obj _ _ _ Hwf Hk) as (o & h & Ho & Hh).
  destruct (Hframe l o h eq_refl Ho Hh) as [Ho' Hh'].
  unfold view. by rewrite Ho, Ho', Hh, Hh'.
Qed.

Lemma upsert_task_other (w : World R) params k :
  wf_world w → k ≠ sp_id params →
  stored (snd (upsert_task params w)) k = stored w k.
Proof.
  intros Hwf Hne. destruct (tasks w !! sp_id params) as [l|] eqn:Hk.
  - destruct (wf_stored_obj _ _ _ Hwf Hk) as (o & h & Ho & Hh).
    rewrite (upsert_task_existing _ _ _ _ _ Hk Ho Hh). simpl.
    apply stored_frame; [done|done|]. simpl.
    intros l2 o2 h2 Hk2 Ho2 Hh2. split; [done|].
    rewrite list_lookup_insert_ne; [done|].
    intros Heq. destruct Hwf as [_ Hinj].
    apply Hne. symmetry. by eapply (Hinj (sp_id params) k).
  - rewrite (upsert_task_fresh _ _ Hk). simpl.
    apply stored_frame; [done| |]; simpl.
    + by rewrite lookup_insert_ne.
    + intros l2 o2 h2 Hk2 Ho2 Hh2. split; by apply lookup_app_l_Some.
Qed.

Lemma on_send_task_reply_other (w : World R) request task kt k :
  wf_world w → tasks w !! kt = Some task → k ≠ kt →
  stored (snd (on_send_task_reply request task w)) k = stored w k.
Proof.
  intros Hwf Hkt Hne.
  destruct (parts (message (sreq_params request))) as [|p ps] eqn:Hp.
  { by rewrite on_send_task_reply_no_parts. }
  destruct (invoke (text p) (session_id (sreq_params request)) (runner w))
    as [[txt|e] ρ] eqn:Hi.
  - destruct (wf_stored_obj _ _ _ Hwf Hkt) as (o & h & Ho & Hh).
    rewrite (on_send_task_reply_ok _ _ _ _ _ _ _ _ _ Hp Hi Ho Hh). simpl.
    apply stored_frame; [done|done|]. simpl.
    intros l2 o2 h2 Hk2 Ho2 Hh2.
    assert (Hh_ne : obj_history o2 ≠ obj_history o).
    { intros Heq. destruct Hwf as [_ Hinj]. apply Hne. by eapply (Hinj k kt). }
    split.
    + rewrite list_lookup_insert_ne; [done|]. intros ->. congruence.
    + rewrite list_lookup_insert_ne; [done|]. congruence.
  - rewrite (on_send_task_reply_raise _ _ _ _ _ _ _ Hp Hi). done.
Qed.

Lemma on_get_task_other (w : World R) request k :
  wf_world w → stored (snd (on_get_task request w)) k = stored w k.
Proof.
  intros Hwf. destruct (tasks w !! qp_id (greq_params request)) as [l|] eqn:Hk.
  - destruct (wf_stored_obj _ _ _ Hwf Hk) as (o & h & Ho & Hh).
    rewrite (on_get_task_found _ _ _ _ _ Hk Ho Hh).
    destruct (qp_historyLength (greq_params request)); simpl;
      (apply stored_frame; [done|done|]); simpl;
      intros l2 o2 h2 Hk2 Ho2 Hh2.
    + split; by apply lookup_app_l_Some.
    + split; [by apply lookup_app_l_Some|done].
  - by rewrite (on_get_task_missing _ _ Hk).
Qed.

(** X6, isolation: an operation about one id leaves the task stored
    under any other id exactly as it was, status and history, and
    creates none there. *)
Theorem other_tasks_untouched (w : World R) (op : Op) (k : string) :
  wf_world w → k ≠ op_id op →
  stored (run_op op w) k = stored w k.
Proof.
  intros Hwf Hne. destruct op as [p|r|r]; simpl in *.
  - by apply upsert_task_other.
  - rewrite on_send_task_unfold. unfold bind.
    pose proof (upsert_task_other w (sreq_params r) k Hwf Hne) as Hu.
    destruct (upsert_task_evolves w (sreq_params r) Hwf) as [Hwf1 _].
    destruct (upsert_task_result w (sreq_params r) Hwf) as (l & Hl & Hst).
    destruct (upsert_task (sreq_params r) w) as [[l'|e] w1]; simpl in *; [|done].
    simplify_eq. rewrite <- Hu.
    by apply (on_send_task_reply_other w1 r l (sp_id (sreq_params r))).
  - by apply on_get_task_other.
Qed.

Lemma on_send_task_reply_tasks (w : World R) request task :
  wf_world w → stored_obj w task →
  tasks (snd (on_send_task_reply request task w)) = tasks w.
Proof.
  intros Hwf [k Hk].
  destruct (parts (message (sreq_params request))) as [|p ps] eqn:Hp.
  { by rewrite on_send_task_reply_no_parts. }
  destruct (invoke (text p) (session_id (sreq_params request)) (runner w))
    as [[txt|e] ρ] eqn:Hi.
  - destruct (wf_stored_obj _ _ _ Hwf Hk) as (o & h & Ho & Hh).
    by rewrite (on_send_task_reply_ok _ _ _ _ _ _ _ _ _ Hp Hi Ho Hh).
  - by rewrite (on_send_task_reply_raise _ _ _ _ _ _ _ Hp Hi).
Qed.

Lemma upsert_task_dom (w : World R) params :
  wf_world w →
  dom (tasks (snd (upsert_task params w))) = {[sp_id params]} ∪ dom (tasks w).
Proof.
  intros Hwf. destruct (tasks w !! sp_id params) as [l|] eqn:Hk.
  - destruct (wf_stored_obj _ _ _ Hwf Hk) as (o & h & Ho & Hh).
    rewrite (upsert_task_existing _ _ _ _ _ Hk Ho Hh). simpl.
    symmetry. apply subseteq_union_1_L, singleton_subseteq_l, elem_of_dom. by eexists.
  - rewrite (upsert_task_fresh _ _ Hk). simpl. by rewrite dom_insert_L.
Qed.

(** X7: the ids of the table after an operation.  [upsert_task] and
    [on_send_task] leave exactly the ids that were there and the id of
    the request, whether or not the resolver call succeeds (a failed send
    has still created its task); [on_get_task] leaves the ids as they
    were. *)
Theorem run_op_ids (w : World R) (op : Op) :
  wf_world w →
  dom (tasks (run_op op w)) =
  match op with
  | OpGet _ => dom (tasks w)
  | _ => {[op_id op]} ∪ dom (tasks w)
  end.
Proof.
  intros Hwf. destruct op as [p|r|r]; simpl.
  - by apply upsert_task_dom.
  - rewrite on_send_task_unfold. unfold bind.
    pose proof (upsert_task_dom w (sreq_params r) Hwf) as Hd.
    destruct (upsert_task_evolves w (sreq_params r) Hwf) as [Hwf1 _].
    destruct (upsert_task_result w (sreq_params r) Hwf) as (l & Hl & Hst).
    destruct (upsert_task (sreq_params r) w) as [[l'|e] w1]; simpl in *; [|done].
    simplify_eq. rewrite on_send_task_reply_tasks; [done|done|by eexists].
  - f_equal. destruct (on_get_task_evolves w r Hwf) as [_ Hev].
    apply map_eq. intros k.
    destruct (tasks w !! qp_id (greq_params r)) as [l|] eqn:Hk.
    + destruct (wf_stored_obj _ _ _ Hwf Hk) as (o & h & Ho & Hh).
      rewrite (on_get_task_found _ _ _ _ _ Hk Ho Hh).
      by destruct (qp_historyLength (greq_params r)).
    + by rewrite (on_get_task_missing _ _ Hk).
Qed.

(** ** More on the agent *)

(** X10: when the last event of a run has parts, [invoke] answers with
    the texts of the parts of that last event alone, those that are
    neither missing nor empty, joined by newlines; the events before it
    do not count. *)
Theorem invoke_reads_last_event (query sid : string) (ρ0 ρ1 ρ2 ρ3 : R)
    (session : bool) (earlier : list Event) (ev : Event) (c : Content)
    (p : GenaiPart) (ps : list GenaiPart) :
  get_session sid ρ0 = (Ok session, ρ1) →
  (if session then ρ2 = ρ1 else create_session sid ρ1 = (Ok tt, ρ2)) →
  runner_run sid query ρ2 = (Ok (earlier ++ [ev]), ρ3) →
  content ev = Some c → content_parts c = Some (p :: ps) →
  invoke query sid ρ0 = (Ok (join newline (omap truthy_text (p :: ps))), ρ3).
Proof.
  intros Hg Hc Hr Hev Hps.
  assert (Hl : last_parts (earlier ++ [ev]) = Some (p :: ps)).
  { unfold last_parts. by rewrite last_snoc, Hev, Hps. }
  unfold invoke, bind. rewrite Hg. destruct session.
  - subst ρ2. unfold ret. by rewrite Hr, Hl.
  - by rewrite Hc, Hr, Hl.
Qed.

(** ** What the handler answers *)

Lemma wf_world_same_store (w w' : World R) :
  tasks w' = tasks w → objs w' = objs w → lists w' = lists w →
  wf_world w → wf_world w'.
Proof.
  intros Ht Ho Hl [H1 H2]. split.
  - intros k l Hk. rewrite Ht in Hk. specialize (H1 k l Hk).
    unfold view in *. by rewrite Ho, Hl.
  - intros k1 k2 l1 l2 o1 o2. rewrite Ht, Ho. apply H2.
Qed.

(** what [on_send_task] has done when it returns *)
Lemma on_send_task_Ok_inv (w w' : World R) (r : SendTaskRequest) (resp : SendTaskResponse) :
  wf_world w → on_send_task r w = (Ok resp, w') →
  ∃ l i t,
    resp = {| resp_id := IdStr i; resp_result := Some l; resp_error := None |} ∧
    tasks w' !! sp_id (sreq_params r) = Some l ∧ view w' l = Some t ∧
    state (status t) = "COMPLETED" ∧ (∃ n, timestamp (status t) = clock n) ∧
    ∃ txt, history t = history (upsert_spec w (sreq_params r))
                       ++ [{| role := agent; parts := [{| text := txt |}] |}].
Proof.
  intros Hwf Hrun.
  destruct (upsert_task_view w (sreq_params r) Hwf) as (l & w1 & Hup & Hk & Hv & Hr).
  apply view_Some in Hv as Hv'. destruct Hv' as (o & h & Ho & Hh & Hspec).
  pose proof Hrun as Hrun'.
  rewrite on_send_task_unfold in Hrun'. unfold bind in Hrun'. rewrite Hup in Hrun'.
  destruct (parts (message (sreq_params r))) as [|p ps] eqn:Hp.
  { by rewrite on_send_task_reply_no_parts in Hrun'. }
  destruct (invoke (text p) (session_id (sreq_params r)) (runner w1))
    as [[txt|e] ρ] eqn:Hi.
  2:{ by rewrite (on_send_task_reply_raise _ _ _ _ _ _ _ Hp Hi) in Hrun'. }
  destruct (on_send_task_ok _ _ _ _ _ _ _ _ _ _ Hup Hp Hi Ho Hh)
    as (resp0 & w0 & Hrun0 & Hl & He & Ht & Hv0).
  rewrite Hrun0 in Hrun. injection Hrun as -> ->.
  rewrite (on_send_task_reply_ok _ _ _ _ _ _ _ _ _ Hp Hi Ho Hh) in Hrun'.
  injection Hrun' as Hresp _.
  eexists l, _, _. split_and!.
  - by rewrite <- Hresp.
  - by rewrite Ht.
  - exact Hv0.
  - reflexivity.
  - by eexists.
  - exists txt. simpl. by rewrite Hspec.
Qed.

(** what [handle_request] has done when it returns a response *)
Lemma handle_request_Ok_inv (w w' : World R) (request_json : result json)
    (resp : JSONResponse) :
  wf_world w → handle_request request_json w = (Ok resp, w') →
  ∃ b r w1 i t,
    request_json = Ok b ∧
    A2ARequest_validate_python b w = (Ok (IsSendTaskRequest r), w1) ∧
    resp = {| status_code := 200;
              body := JObj [("jsonrpc", JStr "2.0"); ("id", JStr i);
                            ("result", dump_Task t)] |} ∧
    stored w' (sp_id (sreq_params r)) = Some t ∧
    state (status t) = "COMPLETED" ∧ (∃ n, timestamp (status t) = clock n) ∧
    ∃ txt, history t = history (upsert_spec w1 (sreq_params r))
                       ++ [{| role := agent; parts := [{| text := txt |}] |}].
Proof.
  intros Hwf H. unfold handle_request, try_except in H.
  destruct (handle_request_try request_json w) as [[a|e] w0] eqn:Htry.
  2:{ unfold handle_request_except, bind in H. by rewrite logger_call_errorr in H. }
  injection H as -> ->.
  unfold handle_request_try, bind, lift in Htry.
  destruct request_json as [b|e]; [|done].
  rewrite logger_call_info in Htry. unfold ret in Htry.
  destruct (keeps_store_validate_python b w) as (Ht & Ho & Hl).
  destruct (A2ARequest_validate_python b w) as [[[r|r]|e] w1] eqn:Hv;
    simpl in *; [|done|done].
  assert (Hwf1 : wf_world w1) by by apply (wf_world_same_store w).
  destruct (on_send_task r w1) as [[sresp|e] w2] eqn:Hrun; [|done].
  destruct (on_send_task_Ok_inv _ _ _ _ Hwf1 Hrun)
    as (l & i & t & -> & Hk & Hview & Hst & Hts & Hh).
  unfold create_response, dump_response_exclude_none, bind, deref in Htry.
  simpl in Htry. rewrite Hview in Htry. injection Htry as <- <-.
  exists b, r, w1, i, t. split_and!; try done.
  unfold stored. by rewrite Hk.
Qed.

(** X8: every response that [handle_request] returns is the success
    response.  The request was decoded and resolved to a
    [SendTaskRequest]; the status is 200 and the body is exactly
    [{jsonrpc, id, result}] with the wire shape of the task now stored
    under the id of the request, whose state is ["COMPLETED"].  The
    handler returns no response with status 400 and no body with an
    [error] member. *)
Theorem handle_request_answers_success_only (w w' : World R)
    (request_json : result json) (resp : JSONResponse) :
  wf_world w → handle_request request_json w = (Ok resp, w') →
  dispatches_send request_json w = true ∧
  status_code resp = 200 ∧
  ∃ b r i t,
    request_json = Ok b ∧
    fst (A2ARequest_validate_python b w) = Ok (IsSendTaskRequest r) ∧
    body resp = JObj [("jsonrpc", JStr "2.0"); ("id", JStr i); ("result", dump_Task t)] ∧
    stored w' (sp_id (sreq_params r)) = Some t ∧
    state (status t) = "COMPLETED".
Proof.
  intros Hwf H.
  destruct (handle_request_Ok_inv _ _ _ _ Hwf H)
    as (b & r & w1 & i & t & -> & Hv & -> & Hst & Hstate & _).
  split_and!; [by unfold dispatches_send; rewrite Hv|done|].
  exists b, r, i, t. by rewrite Hv.
Qed.

(** ** The tool *)

(** X11: [get_reddit_news] returns [{subreddit: titles}], the titles of
    the listed posts in their order, when Reddit answers.  When any step
    of the listing raises, its [except] clause raises [AttributeError]
    at [logger.errorint]: the dictionary with the error text is never
    returned. *)
Theorem get_reddit_news_outcome (subreddit : string) (limit : Z) (ρ : P) :
  get_reddit_news subreddit limit ρ =
  match hot subreddit limit ρ with
  | (Ok posts, ρ') => (Ok {[subreddit := map title posts]}, ρ')
  | (Raise e, ρ') => (Raise (AttributeError "errorint"), ρ')
  end.
Proof.
  unfold get_reddit_news, try_except, bind, ret.
  destruct (hot subreddit limit ρ) as [[posts|e] ρ']; reflexivity.
Qed.

(** ** The agent card *)

Lemma validate_dump_str_list what (l : list string) :
  validate_str_list what (JArr (map JStr l)) = Ok l.
Proof.
  unfold validate_str_list.
  induction l as [|x l IH]; [done|].
  change (result_bind (Ok x) (λ y,
            result_bind (result_mapM (λ x, validate_str what (Some x)) (map JStr l))
              (λ ys, Ok (y :: ys))) = Ok (x :: l)).
  by rewrite IH.
Qed.

Lemma validate_dump_AgentCapabilities c :
  validate_AgentCapabilities (dump_AgentCapabilities c) = Ok c.
Proof. by destruct c. Qed.

Lemma validate_dump_AgentSkill k : validate_AgentSkill (dump_AgentSkill k) = Ok k.
Proof.
  destruct k as [i n d e im om].
  unfold validate_AgentSkill, dump_AgentSkill, dump_str_list.
  destruct d, e, im, om;
    cbn [skill_id skill_name skill_description examples inputModes outputModes
         opt_key app field String.eqb Ascii.eqb Bool.eqb validate_str validate_opt_str
         validate_opt_str_list result_bind];
    rewrite ?validate_dump_str_list; reflexivity.
Qed.

Lemma validate_dump_skills ks :
  result_mapM validate_AgentSkill (map dump_AgentSkill ks) = Ok ks.
Proof.
  induction ks as [|k ks IH]; [done|].
  cbn [map result_mapM]. by rewrite validate_dump_AgentSkill, IH.
Qed.

(** X12: the document served at [/.well-known/agent.json] reads back as
    the card.  For every card the endpoint answers with status 200, and
    validating the body as an [AgentCard] gives the card itself: leaving
    out the fields of a skill that are [None] loses nothing. *)
Theorem agent_card_served_roundtrip (card : AgentCard) :
  ∃ r, get_agent_card (Some card) = Ok r ∧ status_code r = 200 ∧
       validate_AgentCard (body r) = Ok card.
Proof.
  eexists. split; [reflexivity|]. split; [reflexivity|].
  destruct card as [n d u v c ks im om].
  unfold validate_AgentCard, dump_AgentCard, dump_str_list.
  cbn [body card_name card_description card_url card_version capabilities skills
       defaultInputModes defaultOutputModes field String.eqb Ascii.eqb Bool.eqb
       validate_str result_bind validate_str_list_default].
  rewrite validate_dump_AgentCapabilities. cbn [result_bind].
  rewrite validate_dump_skills. cbn [result_bind].
  by rewrite !validate_dump_str_list.
Qed.

(** X13: the card of [main].  For every host and port [main] builds its
    card without a validation error, the guard of [start] accepts it,
    and the document served for it has the url [http://host:port/] and
    one skill with the keys [id], [name], [description] and [examples]
    only: the [tags] that [main] passes to [AgentSkill] are not a field
    of the model and do not reach the card. *)
Theorem main_card_served (host : string) (port : Z) :
  ∃ card,
    main_agent_card host port = Ok card ∧
    start_guard (Some card) true = Ok tt ∧
    get_agent_card (Some card) =
      Ok {| status_code := 200;
            body := JObj
              [("name", JStr "RedditAgent");
               ("description",
                JStr "This agent replies fetched the latest posts from a given subreddit.");
               ("url", JStr (String.append "http://" (String.append host
                               (String.append ":" (String.append (pretty port) "/")))));
               ("version", JStr "1.0.0");
               ("capabilities", JObj [("streaming", JBool false);
                                      ("pushNotifications", JBool false);
                                      ("stateTransitionHistory", JBool false)]);
               ("skills", JArr [JObj
                  [("id", JStr "fetch_reddit_post");
                   ("name", JStr "Fetch Latest Reddit Posts Tool");
                   ("description", JStr "Given a subreddit name, it fetch the latest posts of that subreddit and returns them in a formatted response");
                   ("examples", JArr [JStr "What are the latest posts on AI_Agents?";
                                      JStr "Tell me the top news from gamedev"])]]);
               ("defaultInputModes", JArr [JStr "text"; JStr "text/plain"]);
               ("defaultOutputModes", JArr [JStr "text"; JStr "text/plain"])] |}.
Proof. eexists. split; [reflexivity|]. split; reflexivity. Qed.

(** ** The client *)

Lemma Task_of_dump_Task (w : World R) (t : Task) :
  parse_datetime (isoformat (timestamp (status t))) = Some (timestamp (status t)) →
  Task_of [("id", JStr (task_id t)); ("status", dump_TaskStatus (status t));
           ("history", JArr (map dump_Message (history t)))] w = (Ok t, w).
Proof.
  destruct t as [i [s ts] h]. cbn [status timestamp]. intros Hts.
  unfold Task_of, TaskStatus_of, dump_TaskStatus, validate_TaskStatus, bind, lift.
  cbn [field String.eqb Ascii.eqb Bool.eqb task_id status history state timestamp
       validate_str result_bind].
  rewrite Hts. cbn [result_bind]. by rewrite validate_dump_history.
Qed.

(** X14, the client against the server: a client made from the agent
    card posts to the card's url, whatever [url] it is given besides;
    when the handler answers the posted request and the transport
    delivers that answer, [send_task] returns the task that the server
    now stores under the id of the payload (whenever the ISO text of its
    timestamp parses back to the timestamp). *)
Theorem send_task_end_to_end (card : AgentCard) (url : option string)
    (payload : list (string * json)) (status_text : string)
    (wc wc1 ws ws' : World R) (request : SendTaskRequest)
    (resp : JSONResponse) (t : Task) :
  wf_world ws →
  new_send_request payload wc = (Ok request, wc1) →
  handle_request (Ok (dump_SendTaskRequest request)) ws = (Ok resp, ws') →
  post (card_url card) (dump_SendTaskRequest request) = delivered status_text resp →
  stored ws' (sp_id (sreq_params request)) = Some t →
  parse_datetime (isoformat (timestamp (status t))) = Some (timestamp (status t)) →
  ∃ self, A2AClient_init (Some card) url = Ok self ∧
          send_task self payload wc = (inr t, wc1).
Proof.
  intros Hwf Hnew Hrun Hpost Hst Hts.
  destruct (handle_request_Ok_inv _ _ _ _ Hwf Hrun)
    as (b & r & w1 & i & t' & Hb & Hv & -> & Hst' & _).
  injection Hb as <-.
  rewrite validate_python_send_envelope in Hv. unfold bind in Hv.
  rewrite validate_dump_TaskSendParams in Hv. unfold ret in Hv.
  injection Hv as <- <-. simpl in Hst'.
  rewrite Hst in Hst'. injection Hst' as <-.
  eexists. split; [reflexivity|].
  unfold send_task. rewrite Hnew. unfold _send_request. cbn [client_url].
  rewrite Hpost. unfold delivered, Task_of_response.
  cbn [hx_status_error hx_json status_code body Z.leb Z.compare Pos.compare
       Pos.compare_cont field String.eqb Ascii.eqb Bool.eqb].
  unfold dump_Task. by rewrite Task_of_dump_Task.
Qed.

(** X15: the client does not read the [error] member of a response.
    When the request was built and the response has a success status
    and a JSON object for a body, a body without [result] (a JSON-RPC
    error response) makes [send_task] raise [KeyError], and one whose
    [result] is [null] or anything but an object makes it raise
    [TypeError]; neither is one of the client's own error classes, and no
    task is returned. *)
Theorem send_task_without_result (self : A2AClient) (payload : list (string * json))
    (w w1 : World R) (request : SendTaskRequest) (r : HttpxResponse)
    (fs : list (string * json)) :
  new_send_request payload w = (Ok request, w1) →
  post (client_url self) (dump_SendTaskRequest request) = Responded r →
  hx_status_error r = None → hx_json r = inr (JObj fs) →
  (∀ kwargs, field "result" fs ≠ Some (JObj kwargs)) →
  send_task self payload w =
    (inl (match field "result" fs with
          | None => KeyError "result"
          | Some _ => TypeError "argument after ** must be a mapping"
          end), w1).
Proof.
  intros Hnew Hpost Hs Hj Hres.
  unfold send_task. rewrite Hnew. unfold _send_request. rewrite Hpost, Hs, Hj.
  unfold Task_of_response.
  destruct (field "result" fs) as [[| | | | |kwargs]|]; try reflexivity.
  by destruct (Hres kwargs).
Qed.

(** X16: how a failed exchange reaches the caller of [send_task], once
    the request was built.  A response with an error status raises
    [A2AClientHTTPError] with the status code, whatever its body; a
    success status with a body that is not JSON raises
    [A2AClientJSONError]; a failure of the transport itself (no
    response at all) is not wrapped and leaves as the [httpx] error it
    is.  In each case nothing but the request id was drawn. *)
Theorem send_task_transport_errors (self : A2AClient) (payload : list (string * json))
    (w w1 : World R) (request : SendTaskRequest) :
  new_send_request payload w = (Ok request, w1) →
  (∀ r msg, post (client_url self) (dump_SendTaskRequest request) = Responded r →
            hx_status_error r = Some msg →
            send_task self payload w =
              (inl (A2AClientHTTPError (hx_status_code r) msg), w1)) ∧
  (∀ r msg, post (client_url self) (dump_SendTaskRequest request) = Responded r →
            hx_status_error r = None → hx_json r = inl msg →
            send_task self payload w = (inl (A2AClientJSONError msg), w1)) ∧
  (∀ what, post (client_url self) (dump_SendTaskRequest request) = PostFailed what →
           send_task self payload w = (inl (HttpxError what), w1)).
Proof.
  intros Hnew. unfold send_task. rewrite Hnew. unfold _send_request.
  split_and!.
  - intros r msg -> ->. reflexivity.
  - intros r msg -> -> ->. reflexivity.
  - intros what ->. reflexivity.
Qed.

End Protocol.

(** ** The scenario, run *)

Local Abbreviation on_send_task_posts :=
  (on_send_task Scenario.clock Scenario.uuid Scenario.get_session
     Scenario.create_session Scenario.run_posts).
Local Abbreviation on_send_task_silent :=
  (on_send_task Scenario.clock Scenario.uuid Scenario.get_session
     Scenario.create_session Scenario.run_silent).
Local Abbreviation on_send_task_failing :=
  (on_send_task Scenario.clock Scenario.uuid Scenario.get_session
     Scenario.create_session Scenario.run_failing).
Local Abbreviation handle_request_posts :=
  (handle_request Scenario.isoformat Scenario.clock Scenario.uuid Scenario.get_session
     Scenario.create_session Scenario.run_posts).

Lemma world1_reached :
  on_send_task_posts Scenario.send1 Scenario.empty_world =
  (Ok {| resp_id := IdStr (Scenario.uuid 0); resp_result := Some 0%nat;
         resp_error := None |}, Scenario.world1).
Proof. vm_compute. reflexivity. Qed.

Lemma wf_world1 : wf_world Scenario.world1.
Proof.
  pose proof (on_send_task_evolves Scenario.clock Scenario.uuid Scenario.get_session
    Scenario.create_session Scenario.run_posts Scenario.empty_world Scenario.send1) as H.
  rewrite world1_reached in H. apply H. by apply wf_world_empty.
Qed.


(** *** C5 at [world1]: a second message for ["t1"] *)
Lemma upsert_task_spec_witness :
  ∃ l w', upsert_task Scenario.clock (sreq_params Scenario.send2) Scenario.world1 = (Ok l, w') ∧
          stored w' "t1" = view w' l ∧
          view w' l = Some
            {| task_id := "t1";
               status := {| state := "COMPLETED"; timestamp := 1 |};
               history := [Scenario.ask "latest from r/golang"; Scenario.answer Scenario.posts;
                           Scenario.ask "and from r/rust"] |}.
Proof.
  exact (upsert_task_spec Scenario.clock Scenario.world1 (sreq_params Scenario.send2)
           wf_world1).
Defined.

(** *** C6 at the empty world *)
Lemma on_get_task_unknown_id_raises_witness :
  on_get_task (Scenario.get "t1" None) Scenario.empty_world =
  (Raise (ValidationError "code: Field required"), Scenario.empty_world).
Proof.
  apply (on_get_task_unknown_id_raises Scenario.empty_world (Scenario.get "t1" None)).
  reflexivity.
Defined.

(** *** C4 at [world1]: [historyLength = 0] *)
Lemma on_get_task_history_witness :
  ∃ resp w' l,
    on_get_task (Scenario.get "t1" (Some 0)) Scenario.world1 = (Ok resp, w') ∧
    resp_result resp = Some l ∧ resp_error resp = None ∧
    view w' l = Some Scenario.task1.
Proof.
  exact (on_get_task_history Scenario.world1 (Scenario.get "t1" (Some 0)) Scenario.task1
           wf_world1 eq_refl).
Defined.

(** *** C8 at [world1]: a second send to ["t1"] *)
Lemma history_never_shrinks_witness :
  ∃ t', stored (run_op Scenario.clock Scenario.uuid Scenario.get_session
                  Scenario.create_session Scenario.run_posts
                  (OpSend Scenario.send2) Scenario.world1) "t1" = Some t' ∧
        history Scenario.task1 `prefix_of` history t' ∧
        (history t' = history Scenario.task1 ∨
         (length (history Scenario.task1) < length (history t'))%nat) ∧
        (∀ request, OpSend Scenario.send2 = OpGet request → t' = Scenario.task1).
Proof.
  exact (history_never_shrinks Scenario.clock Scenario.uuid Scenario.get_session
           Scenario.create_session Scenario.run_posts Scenario.world1
           (OpSend Scenario.send2) "t1" Scenario.task1 wf_world1 eq_refl).
Defined.

(** *** C9 at [world1]: the last message of ["t1"], read before a second
    send, still reads the same after it *)
Lemma handed_out_references_witness :
  is_Some (view (snd (on_get_task (Scenario.get "t1" (Some 1)) Scenario.world1)) 1) ∧
  view (run_ops Scenario.clock Scenario.uuid Scenario.get_session
          Scenario.create_session Scenario.run_posts [OpSend Scenario.send2]
          (snd (on_get_task (Scenario.get "t1" (Some 1)) Scenario.world1))) 1
  = view (snd (on_get_task (Scenario.get "t1" (Some 1)) Scenario.world1)) 1.
Proof.
  apply (proj1 (handed_out_references Scenario.clock Scenario.uuid Scenario.get_session
                  Scenario.create_session Scenario.run_posts Scenario.world1 wf_world1)
           (Scenario.get "t1" (Some 1)) 1
           {| resp_id := IdInt 2; resp_result := Some 1%nat; resp_error := None |}
           (snd (on_get_task (Scenario.get "t1" (Some 1)) Scenario.world1))
           1%nat [OpSend Scenario.send2]).
  - reflexivity.
  - vm_compute. reflexivity.
  - reflexivity.
Defined.

(** *** C7 with a runner that fails: the message of [send1] stays *)
Lemma on_send_task_resolve_outcome_witness :
  ∃ w', on_send_task_failing Scenario.send1 Scenario.empty_world =
        (Raise (ExternalError "model unavailable"), w') ∧
        stored w' "t1" = Some
          {| task_id := "t1";
             status := {| state := "submitted"; timestamp := 0 |};
             history := [Scenario.ask "latest from r/golang"] |}.
Proof.
  exact (on_send_task_resolve_outcome Scenario.clock Scenario.uuid Scenario.get_session
           Scenario.create_session Scenario.run_failing Scenario.empty_world
           Scenario.send1 {| text := "latest from r/golang" |} []
           (Raise (ExternalError "model unavailable")) ["s1"]
           (wf_world_empty Scenario.empty_world eq_refl) eq_refl eq_refl).
Defined.

(** *** C2 at the scenario of the specification *)
Lemma on_send_task_fresh_state_witness :
  ∃ resp w' l,
    on_send_task_posts Scenario.send1 Scenario.empty_world = (Ok resp, w') ∧
    resp_result resp = Some l ∧
    view w' l = Some
      {| task_id := "t1";
         status := {| state := "COMPLETED"; timestamp := 1 |};
         history := [Scenario.ask "latest from r/golang"; Scenario.answer Scenario.posts] |} ∧
    "COMPLETED" ≠ TaskState_value COMPLETED.
Proof.
  exact (on_send_task_fresh_state Scenario.clock Scenario.uuid Scenario.get_session
           Scenario.create_session Scenario.run_posts Scenario.empty_world
           Scenario.send1 {| text := "latest from r/golang" |} [] Scenario.posts ["s1"]
           eq_refl eq_refl eq_refl).
Defined.

(** *** C3 at a body that is not JSON *)
Lemma handle_request_failure_escapes_witness :
  handle_request_posts (Raise JSONDecodeError) Scenario.empty_world =
  (Raise (AttributeError "errorr"), Scenario.empty_world).
Proof.
  apply (handle_request_failure_escapes Scenario.isoformat Scenario.clock Scenario.uuid
           Scenario.get_session Scenario.create_session Scenario.run_posts
           Scenario.empty_world Scenario.empty_world (Raise JSONDecodeError)
           JSONDecodeError).
  reflexivity.
Defined.

(** *** C1 at [world1]: a [tasks/get] for the stored task ["t1"], whose
    missing [id] takes a drawn token *)
Lemma handle_request_rejects_get_witness :
  handle_request_try Scenario.isoformat Scenario.clock Scenario.uuid Scenario.get_session
    Scenario.create_session Scenario.run_posts (Ok Scenario.bare_get) Scenario.world1 =
    (Raise (ValueError
       "Unsupported A2A method: <class 'models.request.GetTaskRequest'>"),
     set_draws S Scenario.world1) ∧
  tasks (set_draws S Scenario.world1) = tasks Scenario.world1 ∧
  objs (set_draws S Scenario.world1) = objs Scenario.world1 ∧
  lists (set_draws S Scenario.world1) = lists Scenario.world1.
Proof.
  apply (proj2 (handle_request_rejects_get Scenario.isoformat Scenario.clock Scenario.uuid
                  Scenario.get_session Scenario.create_session Scenario.run_posts)
           Scenario.world1 (set_draws S Scenario.world1) Scenario.bare_get
           {| greq_id := IdStr (Scenario.uuid 1);
              greq_params := {| qp_id := "t1"; qp_metadata := None;
                                qp_historyLength := None |} |}).
  reflexivity.
Defined.

(** *** X1 at [world1]: reading ["t1"] twice *)
Lemma read_twice_same_witness :
  ∃ resp1 w1 l1 resp2 w2 l2,
    on_get_task (Scenario.get "t1" (Some 1)) Scenario.world1 = (Ok resp1, w1) ∧
    resp_result resp1 = Some l1 ∧
    on_get_task (Scenario.get "t1" (Some 1)) w1 = (Ok resp2, w2) ∧
    resp_result resp2 = Some l2 ∧
    is_Some (view w1 l1) ∧ view w2 l2 = view w1 l1.
Proof.
  exact (read_twice_same Scenario.world1 (Scenario.get "t1" (Some 1)) Scenario.task1
           wf_world1 eq_refl).
Defined.

(** *** X2 at [world1]: ["t1"] after a read and a second send *)
Lemma task_never_deleted_witness :
  ∃ t', stored (run_ops Scenario.clock Scenario.uuid Scenario.get_session
                  Scenario.create_session Scenario.run_posts
                  [OpGet (Scenario.get "t1" None); OpSend Scenario.send2]
                  Scenario.world1) "t1" = Some t' ∧
        task_id t' = task_id Scenario.task1 ∧
        history Scenario.task1 `prefix_of` history t'.
Proof.
  exact (task_never_deleted Scenario.clock Scenario.uuid Scenario.get_session
           Scenario.create_session Scenario.run_posts Scenario.world1
           [OpGet (Scenario.get "t1" None); OpSend Scenario.send2] "t1" Scenario.task1
           wf_world1 eq_refl).
Defined.

(** *** X4 at [world1]: a [tasks/get] body writes nothing *)
Lemma handle_request_only_send_writes_witness :
  tasks (snd (handle_request_posts (Ok Scenario.bare_get) Scenario.world1))
    = tasks Scenario.world1 ∧
  objs (snd (handle_request_posts (Ok Scenario.bare_get) Scenario.world1))
    = objs Scenario.world1 ∧
  lists (snd (handle_request_posts (Ok Scenario.bare_get) Scenario.world1))
    = lists Scenario.world1.
Proof.
  apply (handle_request_only_send_writes Scenario.isoformat Scenario.clock Scenario.uuid
           Scenario.get_session Scenario.create_session Scenario.run_posts
           Scenario.world1 (Ok Scenario.bare_get)).
  reflexivity.
Defined.

(** *** X9 at the scenario of the specification *)
Lemma handle_request_send_ok_witness :
  ∃ w' t,
    handle_request_posts (Ok (dump_SendTaskRequest Scenario.send1)) Scenario.empty_world =
      (Ok {| status_code := 200;
             body := JObj [("jsonrpc", JStr "2.0");
                           ("id", JStr (Scenario.uuid 0));
                           ("result", dump_Task Scenario.isoformat t)] |}, w') ∧
    stored w' "t1" = Some t ∧
    history t = [Scenario.ask "latest from r/golang"; Scenario.answer Scenario.posts].
Proof.
  exact (handle_request_send_ok Scenario.isoformat Scenario.clock Scenario.uuid
           Scenario.get_session Scenario.create_session Scenario.run_posts
           Scenario.empty_world Scenario.send1 {| text := "latest from r/golang" |} []
           Scenario.posts ["s1"]
           (wf_world_empty Scenario.empty_world eq_refl) eq_refl eq_refl).
Defined.

(** *** X5 at [world1]: a message without parts for the new id ["t2"] *)
Lemma on_send_task_no_parts_witness :
  ∃ w', on_send_task_posts Scenario.send_no_parts Scenario.world1 =
          (Raise (IndexError "list index out of range"), w') ∧
        stored w' "t2" = Some
          {| task_id := "t2";
             status := {| state := "submitted"; timestamp := 2 |};
             history := [{| role := user; parts := [] |}] |} ∧
        runner w' = ["s1"].
Proof.
  exact (on_send_task_no_parts Scenario.clock Scenario.uuid Scenario.get_session
           Scenario.create_session Scenario.run_posts Scenario.world1
           Scenario.send_no_parts wf_world1 eq_refl).
Defined.

(** *** X6 at [world1]: a send to ["t2"] leaves ["t1"] alone *)
Lemma other_tasks_untouched_witness :
  stored (run_op Scenario.clock Scenario.uuid Scenario.get_session
            Scenario.create_session Scenario.run_posts
            (OpSend Scenario.send_other) Scenario.world1) "t1"
  = Some Scenario.task1.
Proof.
  apply (other_tasks_untouched Scenario.clock Scenario.uuid Scenario.get_session
           Scenario.create_session Scenario.run_posts Scenario.world1
           (OpSend Scenario.send_other) "t1" wf_world1).
  discriminate.
Defined.

(** *** X7 at [world1]: a send to ["t2"] whose resolver call fails *)
Lemma run_op_ids_witness :
  dom (tasks (run_op Scenario.clock Scenario.uuid Scenario.get_session
                Scenario.create_session Scenario.run_failing
                (OpSend Scenario.send_other) Scenario.world1))
  = {["t2"]} ∪ dom (tasks Scenario.world1).
Proof.
  exact (run_op_ids Scenario.clock Scenario.uuid Scenario.get_session
           Scenario.create_session Scenario.run_failing Scenario.world1
           (OpSend Scenario.send_other) wf_world1).
Defined.

(** *** X10 with a run of two events *)
Lemma invoke_reads_last_event_witness :
  invoke Scenario.get_session Scenario.create_session Scenario.run_two_events
    "latest from r/golang" "s1" [] =
  (Ok Scenario.posts, ["s1"]).
Proof.
  exact (invoke_reads_last_event Scenario.get_session Scenario.create_session
           Scenario.run_two_events "latest from r/golang" "s1" [] [] ["s1"] ["s1"] false
           [{| content := Some {| content_parts :=
                 Some [{| part_text := Some "calling get_reddit_news" |}] |} |}]
           {| content := Some {| content_parts :=
                 Some [{| part_text := Some "- post A" |};
                       {| part_text := Some "" |};
                       {| part_text := None |};
                       {| part_text := Some "- post B" |}] |} |}
           {| content_parts :=
                 Some [{| part_text := Some "- post A" |};
                       {| part_text := Some "" |};
                       {| part_text := None |};
                       {| part_text := Some "- post B" |}] |}
           {| part_text := Some "- post A" |}
           [{| part_text := Some "" |}; {| part_text := None |};
            {| part_text := Some "- post B" |}]
           eq_refl eq_refl eq_refl eq_refl eq_refl).
Defined.

(** the response to [sent1], and a transport that hands every request to
    a server in its initial state and delivers the answer *)
Local Abbreviation response1 :=
  {| status_code := 200;
     body := JObj [("jsonrpc", JStr "2.0"); ("id", JStr (Scenario.uuid 0));
                   ("result", dump_Task Scenario.isoformat Scenario.task1)] |}.
Local Abbreviation post_to_server :=
  (λ (url : string) (content : json),
     match fst (handle_request_posts (Ok content) Scenario.empty_world) with
     | Ok r => delivered "" r
     | Raise _ => Scenario.post_unavailable url content
     end).

(** *** X8 at the scenario of the specification *)
Lemma handle_request_answers_success_only_witness :
  dispatches_send Scenario.uuid (Ok (dump_SendTaskRequest Scenario.send1))
    Scenario.empty_world = true ∧
  status_code response1 = 200 ∧
  ∃ b r i t,
    Ok (dump_SendTaskRequest Scenario.send1) = Ok b ∧
    fst (A2ARequest_validate_python Scenario.uuid b Scenario.empty_world)
      = Ok (IsSendTaskRequest r) ∧
    body response1 = JObj [("jsonrpc", JStr "2.0"); ("id", JStr i);
                           ("result", dump_Task Scenario.isoformat t)] ∧
    stored Scenario.world1 (sp_id (sreq_params r)) = Some t ∧
    state (status t) = "COMPLETED".
Proof.
  apply (handle_request_answers_success_only Scenario.isoformat Scenario.clock
           Scenario.uuid Scenario.get_session Scenario.create_session Scenario.run_posts
           Scenario.empty_world Scenario.world1
           (Ok (dump_SendTaskRequest Scenario.send1)) response1).
  - by apply wf_world_empty.
  - vm_compute. reflexivity.
Defined.

(** *** X14: [payload1] sent to a server in its initial state *)
Lemma send_task_end_to_end_witness :
  ∃ self, A2AClient_init (Some Scenario.card) (Some "http://127.0.0.1:8000/") = Ok self ∧
          send_task Scenario.parse_datetime Scenario.clock Scenario.uuid post_to_server
            self Scenario.payload1 Scenario.empty_world
          = (inr Scenario.task1, set_draws S Scenario.empty_world).
Proof.
  apply (send_task_end_to_end Scenario.isoformat Scenario.parse_datetime Scenario.clock
           Scenario.uuid Scenario.get_session Scenario.create_session Scenario.run_posts
           post_to_server Scenario.card (Some "http://127.0.0.1:8000/") Scenario.payload1
           "" Scenario.empty_world (set_draws S Scenario.empty_world)
           Scenario.empty_world Scenario.world1 Scenario.sent1 response1 Scenario.task1).
  - by apply wf_world_empty.
  - vm_compute. reflexivity.
  - vm_compute. reflexivity.
  - vm_compute. reflexivity.
  - vm_compute. reflexivity.
  - reflexivity.
Defined.

(** *** X15: a JSON-RPC error response with status 200 *)
Lemma send_task_without_result_witness :
  send_task Scenario.parse_datetime Scenario.clock Scenario.uuid Scenario.post_error_body
    Scenario.client Scenario.payload1 Scenario.empty_world
  = (inl (KeyError "result"), set_draws S Scenario.empty_world).
Proof.
  apply (send_task_without_result Scenario.parse_datetime Scenario.clock Scenario.uuid
           Scenario.post_error_body Scenario.client Scenario.payload1
           Scenario.empty_world (set_draws S Scenario.empty_world) Scenario.sent1
           {| hx_status_code := 200; hx_status_error := None;
              hx_json := inr (JObj Scenario.error_body) |}
           Scenario.error_body).
  - vm_compute. reflexivity.
  - reflexivity.
  - reflexivity.
  - reflexivity.
  - intros kwargs. discriminate.
Defined.

(** *** X16: a server that answers with status 500 *)
Lemma send_task_transport_errors_witness :
  send_task Scenario.parse_datetime Scenario.clock Scenario.uuid Scenario.post_unavailable
    Scenario.client Scenario.payload1 Scenario.empty_world
  = (inl (A2AClientHTTPError 500
            "Server error '500 Internal Server Error' for url 'http://localhost:10002/'"),
     set_draws S Scenario.empty_world).
Proof.
  apply (proj1 (send_task_transport_errors Scenario.parse_datetime Scenario.clock
                  Scenario.uuid Scenario.post_unavailable Scenario.client
                  Scenario.payload1 Scenario.empty_world
                  (set_draws S Scenario.empty_world) Scenario.sent1 eq_refl)
           {| hx_status_code := 500;
              hx_status_error :=
                Some "Server error '500 Internal Server Error' for url 'http://localhost:10002/'";
              hx_json := inl "Expecting value: line 1 column 1 (char 0)" |}
           "Server error '500 Internal Server Error' for url 'http://localhost:10002/'").
  - reflexivity.
  - reflexivity.
Defined.

(** ** Where the specification and the code part *)

(** C1 fails on the code: at [world1], where ["t1"] is stored,
    [on_get_task] has a response for a [tasks/get] of ["t1"], but the
    handler does not call it; the request, like one for the unknown id
    ["t9"], ends in an exception that leaves the handler. *)
Lemma handle_request_get_not_dispatched :
  fst (on_get_task (Scenario.get "t1" None) Scenario.world1) =
    Ok {| resp_id := IdInt 2; resp_result := Some 1%nat; resp_error := None |} ∧
  handle_request_posts (Ok (dump_GetTaskRequest (Scenario.get "t1" None))) Scenario.world1 =
    (Raise (AttributeError "errorr"), Scenario.world1) ∧
  handle_request_posts (Ok (dump_GetTaskRequest (Scenario.get "t9" None))) Scenario.world1 =
    (Raise (AttributeError "errorr"), Scenario.world1).
Proof. split_and!; vm_compute; reflexivity. Qed.

(** C7 fails on the code: when the run produces no event, [on_send_task]
    raises nothing; it records the fallback text as the agent's reply and
    marks the task ["COMPLETED"]. *)
Lemma silent_run_completes_task :
  fst (on_send_task_silent Scenario.send1 Scenario.empty_world) =
    Ok {| resp_id := IdStr (Scenario.uuid 0); resp_result := Some 0%nat;
          resp_error := None |} ∧
  stored (snd (on_send_task_silent Scenario.send1 Scenario.empty_world)) "t1" =
    Some {| task_id := "t1";
            status := {| state := "COMPLETED"; timestamp := 1 |};
            history := [Scenario.ask "latest from r/golang";
                        Scenario.answer "No response from agent"] |}.
Proof. split; vm_compute; reflexivity. Qed.

(** C9 fails on the code: the reference that [on_send_task] returned for
    [send1] is the stored object; it shows [task1] when it is handed out
    and [task2] once [send2] has been handled. *)
Lemma send_result_aliases_store :
  on_send_task_posts Scenario.send1 Scenario.empty_world =
    (Ok {| resp_id := IdStr (Scenario.uuid 0); resp_result := Some 0%nat;
           resp_error := None |}, Scenario.world1) ∧
  view Scenario.world1 0 = Some Scenario.task1 ∧
  view (snd (on_send_task_posts Scenario.send2 Scenario.world1)) 0 = Some Scenario.task2 ∧
  Scenario.task1 ≠ Scenario.task2.
Proof. split_and!; [vm_compute; reflexivity..|discriminate]. Qed.
